(** * lexi-backend: resolution, caching and search orchestration

    A shallow embedding of the service layer of the Jagriti API wrapper
    ([app/services/mapper_service.py], [cache_service.py],
    [jagriti_client.py], [case_service.py]) and the properties its
    specification states about it.

    Conventions of the embedding.
    - Python [str] is [string]. The embedding covers ASCII text, where
      [str.upper] and [str.isspace] are what [upper_char] and [isspace]
      compute; what Python does with a letter or a space outside ASCII is
      not modelled, and the laws of normalisation and matching are stated
      for ASCII strings ([is_ascii]).
    - Python [int] is [Z]; [Optional[T]] is [option T].
    - Stateful code runs in the monad [M]: it reads an environment (the
      upstream portal), threads a [World] (cache service, clocks, the log of
      HTTP requests sent) and either returns or raises an [exn].
    - [async]/[await] is sequential composition: a service call runs to its
      end before the next one starts. *)

From Stdlib Require Import List String Ascii ZArith NArith Lia Bool.
From Stdlib Require Import DecimalString DecimalZ Permutation Sorted.
Import ListNotations.

Local Open Scope string_scope.
Local Open Scope Z_scope.

(* ================================================================== *)
(** * Text: the [str] methods the services use *)
(* ================================================================== *)

(** [str.isspace] on one ASCII character: TAB, LF, VT, FF, CR, the four
    separators FS GS RS US, and the space. *)
Definition isspace (c : ascii) : bool :=
  let n := N_of_ascii c in
  ((9 <=? n) && (n <=? 13) || (28 <=? n) && (n <=? 32))%N.

(** [str.upper] on one ASCII character. *)
Definition upper_char (c : ascii) : ascii :=
  let n := N_of_ascii c in
  if ((97 <=? n) && (n <=? 122))%N then ascii_of_N (n - 32) else c.

Fixpoint upper (s : string) : string :=
  match s with
  | EmptyString => EmptyString
  | String c r => String (upper_char c) (upper r)
  end.

Fixpoint lstrip (s : string) : string :=
  match s with
  | EmptyString => EmptyString
  | String c r => if isspace c then lstrip r else s
  end.

Fixpoint rstrip (s : string) : string :=
  match s with
  | EmptyString => EmptyString
  | String c r =>
      match rstrip r with
      | EmptyString => if isspace c then EmptyString else String c EmptyString
      | r' => String c r'
      end
  end.

(** [s.strip()] *)
Definition strip (s : string) : string := rstrip (lstrip s).

(** [s.replace(old, new)] for a one-character [old]. *)
Fixpoint replace (old : ascii) (new : string) (s : string) : string :=
  match s with
  | EmptyString => EmptyString
  | String c r =>
      if Ascii.eqb c old then new ++ replace old new r
      else String c (replace old new r)
  end.

(** [search in target]: [search] occurs in [target] as a contiguous run. *)
Fixpoint contains (search target : string) : bool :=
  prefix search target
  || match target with
     | EmptyString => false
     | String _ r => contains search r
     end.

(** [str(n)] for an [int]. *)
Definition str_of_int (n : Z) : string := NilZero.string_of_int (Z.to_int n).

(** [', '.join(l)] and friends. *)
Fixpoint join (sep : string) (l : list string) : string :=
  match l with
  | [] => ""
  | [x] => x
  | x :: r => x ++ sep ++ join sep r
  end.

(* ================================================================== *)
(** * Values: JSON, exceptions, results *)
(* ================================================================== *)

(** A parsed JSON value, as [response.json()] hands it over. *)
#[warning="-register-all"]
Inductive json : Type :=
| JNull
| JBool (b : bool)
| JNum (n : Z)
| JStr (s : string)
| JArr (l : list json)
| JObj (items : list (string * json)).

(** [type(v).__name__] of a parsed JSON value. *)
Definition py_type_name (v : json) : string :=
  match v with
  | JNull => "NoneType"
  | JBool _ => "bool"
  | JNum _ => "int"
  | JStr _ => "str"
  | JArr _ => "list"
  | JObj _ => "dict"
  end.

(** [str(e)] of the [AttributeError] that [v.get] raises on a value that
    is no [dict], and of the [TypeError] of [len(v)]. *)
Definition no_attribute_get (v : json) : string :=
  "'" ++ py_type_name v ++ "' object has no attribute 'get'".

Definition no_len (v : json) : string :=
  "object of type '" ++ py_type_name v ++ "' has no len()".

(** [d.get(key, default)] on the items of a [dict]. *)
Fixpoint dict_get {V : Type} (d : list (string * V)) (key : string) (default : V) : V :=
  match d with
  | [] => default
  | (k, v) :: r => if String.eqb k key then v else dict_get r key default
  end.

(** The exceptions that travel through the services: httpx's and tenacity's,
    the hierarchy of [app/utils/exceptions.py], and [PyError] for any other
    [Exception] (with its [str(e)]). *)
Inductive exn : Type :=
| HttpxTimeoutException
| HttpxConnectError
| HttpxHTTPStatusError (status_code : Z)
| PyError (text : string)
| RetryError
| JagritiAPIException (message : string) (status_code : Z)
| APITimeoutException
| APIConnectionException
| StateNotFoundException (state_name : string)
| CommissionNotFoundException (commission_name : string)
| CategoryNotFoundException (category_name : string)
| JudgeNotFoundException (judge_name : string)
| InvalidSearchTypeException (search_type : string)
| CaseDataException (message : string).

(** [e.message], set by the constructors of [exceptions.py]; [str(e)]
    otherwise. *)
Definition exn_message (e : exn) : string :=
  match e with
  | HttpxTimeoutException => "timed out"
  | HttpxConnectError => "connection failed"
  | HttpxHTTPStatusError c => "status " ++ str_of_int c
  | PyError t => t
  | RetryError => "RetryError"
  | JagritiAPIException m _ => m
  | APITimeoutException => "API request timed out"
  | APIConnectionException => "Unable to connect to Jagriti API"
  | StateNotFoundException n => "State '" ++ n ++ "' not found"
  | CommissionNotFoundException n => "Commission '" ++ n ++ "' not found"
  | CategoryNotFoundException n => "Category '" ++ n ++ "' not found"
  | JudgeNotFoundException n => "Judge '" ++ n ++ "' not found"
  | InvalidSearchTypeException t => "Invalid search type '" ++ t ++ "'"
  | CaseDataException m => m
  end.

(** [e.status_code] of a [JagritiAPIException] (or subclass). *)
Definition exn_status_code (e : exn) : option Z :=
  match e with
  | JagritiAPIException _ c => Some c
  | APITimeoutException => Some 408
  | APIConnectionException => Some 503
  | StateNotFoundException _ | CommissionNotFoundException _
  | CategoryNotFoundException _ | JudgeNotFoundException _ => Some 404
  | InvalidSearchTypeException _ => Some 400
  | CaseDataException _ => Some 422
  | _ => None
  end.

(** What a call ends in: a value, or a raised exception. *)
Inductive result (A : Type) : Type :=
| Ok (a : A)
| Raise (e : exn).
Arguments Ok {A} a.
Arguments Raise {A} e.

(* ================================================================== *)
(** * Records of the data model *)
(* ================================================================== *)

(** A state or commission as the portal lists it. *)
Module RawRegion.
Record t : Type := mk {
  commissionId : Z;
  commissionNameEn : string;
  circuitAdditionBenchStatus : bool;
  activeStatus : bool }.
End RawRegion.

(** A state or commission as the mapper keeps and caches it. *)
Module Region.
Record t : Type := mk {
  commission_id : Z;
  commission_name : string;
  is_circuit_bench : bool;
  is_active : bool }.
End Region.

Module RawCategory.
Record t : Type := mk { caseCategoryId : Z; caseCategoryNameEn : string }.
End RawCategory.

Module Category.
Record t : Type := mk { category_id : Z; category_name : string }.
End Category.

Module RawJudge.
Record t : Type := mk { judgeId : Z; judgeName : string }.
End RawJudge.

Module Judge.
Record t : Type := mk { judge_id : Z; judge_name : string; commission_id : Z }.
End Judge.

(** [app/models/responses.py], [CaseResponse]. *)
Module CaseResponse.
Record t : Type := mk {
  case_number : string;
  case_stage : string;
  filing_date : string;
  complainant : string;
  complainant_advocate : option string;
  respondent : option string;
  respondent_advocate : option string;
  document_link : option string }.
End CaseResponse.

(** The JSON body of the search endpoint, key by key.  [page] and [size]
    are what the request holds: an integer, or [None] (sent as [null])
    when the caller gave an explicit null. *)
Module Payload.
Record t : Type := mk {
  commissionId : Z;
  page : option Z;
  size : option Z;
  fromDate : string;
  toDate : string;
  dateRequestType : Z;
  serchType : Z;
  serchTypeValue : string;
  judgeId : string }.
End Payload.

(** [app/models/requests.py], as the models leave the validators:
    [page] and [size] are [Optional[int]], the defaults 0 and 30 applied
    when the field is absent. *)
Module CaseSearchRequest.
Record t : Type := mk {
  state : string;
  commission : string;
  search_value : string;
  from_date : option string;
  to_date : option string;
  page : option Z;
  size : option Z }.
End CaseSearchRequest.

Module IndustryTypeSearchRequest.
Record t : Type := mk {
  state : string;
  commission : string;
  category_name : option string;
  category_id : option Z;
  from_date : option string;
  to_date : option string;
  page : option Z;
  size : option Z }.
End IndustryTypeSearchRequest.

Module JudgeSearchRequest.
Record t : Type := mk {
  state : string;
  commission : string;
  judge_name : option string;
  judge_id : option Z;
  from_date : option string;
  to_date : option string;
  page : option Z;
  size : option Z }.
End JudgeSearchRequest.

(* ================================================================== *)
(** * Time *)
(* ================================================================== *)

(** Clock readings are integers counting microseconds: [datetime.now()] on
    the local time line from 1970-01-01, [time.monotonic()] from an
    arbitrary origin. *)
Definition seconds (n : Z) : Z := n * 1000000.

(** [timedelta(seconds=n)] *)
Definition timedelta (n : Z) : Z := seconds n.

(** [dt.year] in the proleptic Gregorian calendar, from the day count. *)
Definition year_of (dt : Z) : Z :=
  let z := dt / seconds 86400 + 719468 in
  let era := z / 146097 in
  let doe := z - era * 146097 in
  let yoe := (doe - doe / 1460 + doe / 36524 - doe / 146096) / 365 in
  let doy := doe - (365 * yoe + yoe / 4 - yoe / 100) in
  let mp := (5 * doy + 2) / 153 in
  yoe + era * 400 + (if mp <? 10 then 0 else 1).

(* ================================================================== *)
(** * cachetools.TTLCache *)
(* ================================================================== *)

(** The library class, by its documented behaviour: a bounded mapping whose
    items carry the time they expire at.  [items] is kept in
    least-recently-used-first order; with the one [ttl] of a cache and a
    monotonic timer the items past their time are exactly the ones
    [expire] unlinks. *)
Module TTLCache.
Record t (V : Type) : Type := mk {
  maxsize : nat;
  ttl : Z;
  items : list (string * (V * Z)) }.
Arguments mk {V}.
Arguments maxsize {V}.
Arguments ttl {V}.
Arguments items {V}.

Definition empty {V : Type} (maxsize : nat) (ttl : Z) : t V :=
  mk maxsize (seconds ttl) [].

Definition without {V : Type} (key : string) (l : list (string * (V * Z)))
  : list (string * (V * Z)) :=
  filter (fun it => negb (String.eqb (fst it) key)) l.

Definition lookup {V : Type} (key : string) (l : list (string * (V * Z)))
  : option (V * Z) :=
  option_map snd (find (fun it => String.eqb (fst it) key) l).

(** [cache.expire(time)] *)
Definition expire {V : Type} (time : Z) (c : t V) : t V :=
  mk (maxsize c) (ttl c) (filter (fun it => time <? snd (snd it)) (items c)).

(** [cache.get(key)] at timer reading [time]: [None] for a missing or
    expired key; a hit makes the key the most recently used. *)
Definition get {V : Type} (key : string) (time : Z) (c : t V) : option V * t V :=
  match lookup key (items c) with
  | Some (v, expires) =>
      if time <? expires
      then (Some v, mk (maxsize c) (ttl c) (without key (items c) ++ [(key, (v, expires))]))
      else (None, c)
  | None => (None, c)
  end.

(** [popitem] as often as the bound asks for before a new key goes in. *)
Fixpoint make_room {V : Type} (bound : nat) (l : list (string * (V * Z)))
  : list (string * (V * Z)) :=
  match l with
  | [] => []
  | _ :: r => if (List.length l <? bound)%nat then l else make_room bound r
  end.

(** [cache[key] = value] at timer reading [time]. *)
Definition setitem {V : Type} (key : string) (value : V) (time : Z) (c : t V) : t V :=
  let live := items (expire time c) in
  let kept :=
    match lookup key live with
    | Some _ => without key live
    | None => make_room (maxsize c) live
    end in
  mk (maxsize c) (ttl c) (kept ++ [(key, (value, time + ttl c))]).

(** [cache.clear()] *)
Definition clear {V : Type} (c : t V) : t V := mk (maxsize c) (ttl c) [].

End TTLCache.

(* ================================================================== *)
(** * The world the services run in *)
(* ================================================================== *)

(** An HTTP request of the client: method, endpoint and parameters. *)
Inductive Request : Type :=
| GetStateCommissionAndCircuitBench
| GetDistrictCommissionByCommissionId (commissionId : Z)
| CaseCategory
| GetJudgeListForHearing (commissionId : Z)
| GetCaseDetailsBySearchType (payload : Payload.t).

Definition method_of (r : Request) : string :=
  match r with
  | GetStateCommissionAndCircuitBench
  | GetDistrictCommissionByCommissionId _
  | GetJudgeListForHearing _ => "GET"
  | CaseCategory | GetCaseDetailsBySearchType _ => "POST"
  end.

Definition endpoint_of (r : Request) : string :=
  match r with
  | GetStateCommissionAndCircuitBench =>
      "/services/report/report/getStateCommissionAndCircuitBench"
  | GetDistrictCommissionByCommissionId _ =>
      "/services/report/report/getDistrictCommissionByCommissionId"
  | CaseCategory => "/services/master/master/v2/caseCategory"
  | GetJudgeListForHearing _ => "/services/master/master/v2/getJudgeListForHearing"
  | GetCaseDetailsBySearchType _ =>
      "/services/case/caseFilingService/v2/getCaseDetailsBySearchType"
  end.

(** What one HTTP request meets. *)
Inductive Attempt : Type :=
| Answered                     (* a 2xx response with a JSON object as body *)
| TimedOut                     (* httpx.TimeoutException *)
| ConnectFailed                (* httpx.ConnectError *)
| Status (code : Z)            (* a non-2xx response: raise_for_status() raises *)
| Broken (text : string).      (* anything else, e.g. a body that is no JSON object *)

(** The upstream portal: how the n-th request sent fares and how long it
    takes, and the data behind each endpoint (the value under ["data"], an
    absent key read as the empty list). *)
Record Env : Type := mkEnv {
  attempt_outcome : nat -> Attempt;
  attempt_duration : nat -> Z;
  states_data : list RawRegion.t;
  districts_data : Z -> list RawRegion.t;
  categories_data : list RawCategory.t;
  judges_data : Z -> list RawJudge.t;
  cases_data : Payload.t -> json }.

(** The fields of [CacheService]. *)
Record CacheState : Type := mkCache {
  states_cache : option (list Region.t);
  states_cache_time : option Z;
  categories_cache : option (list Category.t);
  categories_cache_time : option Z;
  commissions_cache : TTLCache.t (list Region.t);
  judges_cache : TTLCache.t (list Judge.t);
  cases_cache : TTLCache.t (list CaseResponse.t) }.

(** The process state: the [cache] singleton, the two clocks, and every
    HTTP request sent so far, oldest first. *)
Record World : Type := mkWorld {
  cache : CacheState;
  now : Z;
  monotonic : Z;
  sent : list Request }.

(** The state-and-exception monad of the services. *)
Definition M (A : Type) : Type := Env -> World -> result A * World.

Definition ret {A : Type} (a : A) : M A := fun _ w => (Ok a, w).

Definition raise {A : Type} (e : exn) : M A := fun _ w => (Raise e, w).

Definition bind {A B : Type} (m : M A) (k : A -> M B) : M B :=
  fun env w =>
    match m env w with
    | (Ok a, w') => k a env w'
    | (Raise e, w') => (Raise e, w')
    end.

(** [try: m  except Exception as e: handler(e)] *)
Definition try_except {A : Type} (m : M A) (handler : exn -> M A) : M A :=
  fun env w =>
    match m env w with
    | (Ok a, w') => (Ok a, w')
    | (Raise e, w') => handler e env w'
    end.

Notation "x <- m ;; k" := (bind m (fun x => k))
  (at level 61, m at next level, right associativity).
Notation "m ;;; k" := (bind m (fun _ => k))
  (at level 61, right associativity).

Definition ask : M Env := fun env w => (Ok env, w).
Definition get_cache : M CacheState := fun _ w => (Ok (cache w), w).
Definition put_cache (c : CacheState) : M unit :=
  fun _ w => (Ok tt, mkWorld c (now w) (monotonic w) (sent w)).
(** [datetime.now()] *)
Definition datetime_now : M Z := fun _ w => (Ok (now w), w).
(** [time.monotonic()] *)
Definition time_monotonic : M Z := fun _ w => (Ok (monotonic w), w).

(** Time passing: both clocks move on by [d]. *)
Definition elapse (d : Z) (w : World) : World :=
  mkWorld (cache w) (now w + d) (monotonic w + d) (sent w).

(** [await asyncio.sleep(d)] *)
Definition sleep (d : Z) : M unit := fun _ w => (Ok tt, elapse d w).

(* ================================================================== *)
(** * config.py *)
(* ================================================================== *)

Module Settings.
Definition CACHE_TTL_STATES : Z := 86400.
Definition CACHE_TTL_CATEGORIES : Z := 86400.
Definition CACHE_TTL_COMMISSIONS : Z := 21600.
Definition CACHE_TTL_JUDGES : Z := 21600.
Definition CACHE_TTL_CASES : Z := 300.
Definition REQUEST_TIMEOUT : Z := 300.
Definition MAX_RETRIES : Z := 3.
Definition DEFAULT_PAGE_SIZE : Z := 30.
End Settings.

(* ================================================================== *)
(** * cache_service.py *)
(* ================================================================== *)

(** A keyword argument's value, as far as [json.dumps] and [str] tell
    them apart. *)
Inductive pyval : Type :=
| PNone
| PBool (b : bool)
| PInt (n : Z)
| PStr (s : string).

Module CacheService.

(** [CacheService.__init__] *)
Definition init : CacheState :=
  mkCache None None None None
          (TTLCache.empty 50 21600)
          (TTLCache.empty 100 21600)
          (TTLCache.empty 200 300).

(** [_is_cache_valid], given the reading of [datetime.now()] *)
Definition _is_cache_valid (cache_time : option Z) (ttl_seconds : Z) (dt_now : Z) : bool :=
  match cache_time with
  | None => false
  | Some t => dt_now - t <? timedelta ttl_seconds
  end.

Definition get_states : M (option (list Region.t)) :=
  c <- get_cache ;; ret (states_cache c).

Definition set_states (data : list Region.t) : M unit :=
  c <- get_cache ;;
  t <- datetime_now ;;
  put_cache (mkCache (Some data) (Some t)
                     (categories_cache c) (categories_cache_time c)
                     (commissions_cache c) (judges_cache c) (cases_cache c)).

Definition is_states_valid (ttl : Z) : M bool :=
  c <- get_cache ;;
  t <- datetime_now ;;
  ret (_is_cache_valid (states_cache_time c) ttl t).

Definition get_categories : M (option (list Category.t)) :=
  c <- get_cache ;; ret (categories_cache c).

Definition set_categories (data : list Category.t) : M unit :=
  c <- get_cache ;;
  t <- datetime_now ;;
  put_cache (mkCache (states_cache c) (states_cache_time c)
                     (Some data) (Some t)
                     (commissions_cache c) (judges_cache c) (cases_cache c)).

Definition is_categories_valid (ttl : Z) : M bool :=
  c <- get_cache ;;
  t <- datetime_now ;;
  ret (_is_cache_valid (categories_cache_time c) ttl t).

Definition commissions_key (state_id : Z) : string :=
  "commissions_" ++ str_of_int state_id.

Definition get_commissions (state_id : Z) : M (option (list Region.t)) :=
  let key := commissions_key state_id in
  c <- get_cache ;;
  t <- time_monotonic ;;
  let (data, tc) := TTLCache.get key t (commissions_cache c) in
  put_cache (mkCache (states_cache c) (states_cache_time c)
                     (categories_cache c) (categories_cache_time c)
                     tc (judges_cache c) (cases_cache c)) ;;;
  ret data.

Definition set_commissions (state_id : Z) (data : list Region.t) : M unit :=
  let key := commissions_key state_id in
  c <- get_cache ;;
  t <- time_monotonic ;;
  put_cache (mkCache (states_cache c) (states_cache_time c)
                     (categories_cache c) (categories_cache_time c)
                     (TTLCache.setitem key data t (commissions_cache c))
                     (judges_cache c) (cases_cache c)).

Definition judges_key (commission_id : Z) : string :=
  "judges_" ++ str_of_int commission_id.

Definition get_judges (commission_id : Z) : M (option (list Judge.t)) :=
  let key := judges_key commission_id in
  c <- get_cache ;;
  t <- time_monotonic ;;
  let (data, tc) := TTLCache.get key t (judges_cache c) in
  put_cache (mkCache (states_cache c) (states_cache_time c)
                     (categories_cache c) (categories_cache_time c)
                     (commissions_cache c) tc (cases_cache c)) ;;;
  ret data.

Definition set_judges (commission_id : Z) (data : list Judge.t) : M unit :=
  let key := judges_key commission_id in
  c <- get_cache ;;
  t <- time_monotonic ;;
  put_cache (mkCache (states_cache c) (states_cache_time c)
                     (categories_cache c) (categories_cache_time c)
                     (commissions_cache c)
                     (TTLCache.setitem key data t (judges_cache c))
                     (cases_cache c)).

(** [json.dumps(kwargs, sort_keys=True)]: the items in ascending key
    order, [", "] and [": "] as separators, strings quoted and escaped
    ([ensure_ascii]), [None] as [null]. *)
Definition hex_digit (n : N) : ascii :=
  ascii_of_N (if (n <? 10)%N then 48 + n else 87 + n).

Definition json_escape (c : ascii) : string :=
  let n := N_of_ascii c in
  if (n =? 34)%N then String "\" (String c "")
  else if (n =? 92)%N then "\\"
  else if (n =? 8)%N then "\b"
  else if (n =? 12)%N then "\f"
  else if (n =? 10)%N then "\n"
  else if (n =? 13)%N then "\r"
  else if (n =? 9)%N then "\t"
  else if ((n <? 32) || (126 <? n))%N
       then "\u00" ++ String (hex_digit (n / 16)) (String (hex_digit (n mod 16)) "")
  else String c "".

Fixpoint json_escape_all (s : string) : string :=
  match s with
  | EmptyString => EmptyString
  | String c r => json_escape c ++ json_escape_all r
  end.

Definition json_quote (s : string) : string :=
  let q := String (ascii_of_N 34) "" in
  q ++ json_escape_all s ++ q.

Definition json_value (v : pyval) : string :=
  match v with
  | PNone => "null"
  | PBool true => "true"
  | PBool false => "false"
  | PInt n => str_of_int n
  | PStr s => json_quote s
  end.

Fixpoint insert_item (it : string * pyval) (l : list (string * pyval))
  : list (string * pyval) :=
  match l with
  | [] => [it]
  | x :: r => if String.leb (fst it) (fst x) then it :: l else x :: insert_item it r
  end.

(** [sorted(kwargs.items())] *)
Fixpoint sort_items (l : list (string * pyval)) : list (string * pyval) :=
  match l with
  | [] => []
  | it :: r => insert_item it (sort_items r)
  end.

Definition json_dumps_sorted (kwargs : list (string * pyval)) : string :=
  "{" ++ join ", " (map (fun it => json_quote (fst it) ++ ": " ++ json_value (snd it))
                        (sort_items kwargs)) ++ "}".

Section Digest.
(** [hashlib.md5(s.encode()).hexdigest()] *)
Variable md5_hexdigest : string -> string.

Definition _generate_cache_key (kwargs : list (string * pyval)) : string :=
  let key_string := json_dumps_sorted kwargs in
  md5_hexdigest key_string.

Definition get_cases (params : list (string * pyval))
  : M (option (list CaseResponse.t)) :=
  let key := _generate_cache_key params in
  c <- get_cache ;;
  t <- time_monotonic ;;
  let (data, tc) := TTLCache.get key t (cases_cache c) in
  put_cache (mkCache (states_cache c) (states_cache_time c)
                     (categories_cache c) (categories_cache_time c)
                     (commissions_cache c) (judges_cache c) tc) ;;;
  ret data.

Definition set_cases (data : list CaseResponse.t) (params : list (string * pyval))
  : M unit :=
  let key := _generate_cache_key params in
  c <- get_cache ;;
  t <- time_monotonic ;;
  put_cache (mkCache (states_cache c) (states_cache_time c)
                     (categories_cache c) (categories_cache_time c)
                     (commissions_cache c) (judges_cache c)
                     (TTLCache.setitem key data t (cases_cache c))).
End Digest.





End CacheService.

(* ================================================================== *)
(** * tenacity *)
(* ================================================================== *)

(** The library's retry loop, by its documented behaviour: call [fn]; an
    exception the [retry] predicate rejects is re-raised as it is; one it
    accepts is retried after [wait] unless [stop] says so, and then
    [RetryError] is raised ([reraise] is off by default). *)
Module Tenacity.

(** [wait_exponential(multiplier, min, max)], in seconds, before the
    attempt after attempt [attempt_number]. *)
Definition wait_exponential (multiplier min max : Z) (attempt_number : nat) : Z :=
  let exp := 2 ^ (Z.of_nat attempt_number - 1) in
  Z.max (Z.max 0 min) (Z.min (multiplier * exp) max).

(** [stop_after_attempt(n)] leaves [n - attempt_number] further attempts:
    [more] counts them down. *)
Fixpoint retrying {A : Type} (more : nat) (attempt_number : nat)
         (wait : nat -> Z) (retry : exn -> bool) (fn : M A) : M A :=
  try_except fn (fun e =>
    if retry e then
      match more with
      | O => raise RetryError
      | S more' =>
          sleep (seconds (wait attempt_number)) ;;;
          retrying more' (S attempt_number) wait retry fn
      end
    else raise e).

Definition retry {A : Type} (stop_after_attempt : nat) (wait : nat -> Z)
           (retry_if : exn -> bool) (fn : M A) : M A :=
  retrying (stop_after_attempt - 1) 1 wait retry_if fn.

End Tenacity.

(* ================================================================== *)
(** * jagriti_client.py *)
(* ================================================================== *)

Module JagritiClient.

(** [retry_if_exception_type((httpx.TimeoutException, httpx.ConnectError))] *)
Definition retry_if_exception_type (e : exn) : bool :=
  match e with
  | HttpxTimeoutException | HttpxConnectError => true
  | _ => false
  end.

(** [client.get(...)] / [client.post(...)], [raise_for_status()] and
    [response.json()]: the request goes out, takes its time, and is
    answered with [body] or fails the way the upstream decides. *)
Definition httpx_send {A : Type} (req : Request) (body : Env -> A) : M A :=
  fun env w =>
    let n := List.length (sent w) in
    let w' := elapse (attempt_duration env n)
                     (mkWorld (cache w) (now w) (monotonic w) (sent w ++ [req])) in
    match attempt_outcome env n with
    | Answered => (Ok (body env), w')
    | TimedOut => (Raise HttpxTimeoutException, w')
    | ConnectFailed => (Raise HttpxConnectError, w')
    | Status code => (Raise (HttpxHTTPStatusError code), w')
    | Broken text => (Raise (PyError text), w')
    end.

(** The body of [_make_request]: the [try] with its four [except]
    clauses. *)
Definition _make_request_body {A : Type} (req : Request) (body : Env -> A) : M A :=
  try_except (httpx_send req body) (fun e =>
    match e with
    | HttpxTimeoutException => raise APITimeoutException
    | HttpxConnectError => raise APIConnectionException
    | HttpxHTTPStatusError status_code =>
        raise (JagritiAPIException
                 ("API returned error: " ++ str_of_int status_code) status_code)
    | e => raise (JagritiAPIException ("Unexpected error: " ++ exn_message e) 500)
    end).

(** [_make_request] as decorated:
    [@retry(stop=stop_after_attempt(3),
            wait=wait_exponential(multiplier=1, min=2, max=10),
            retry=retry_if_exception_type(...))] *)
Definition _make_request {A : Type} (req : Request) (body : Env -> A) : M A :=
  Tenacity.retry 3 (Tenacity.wait_exponential 1 2 10) retry_if_exception_type
                 (_make_request_body req body).

Definition get_states : M (list RawRegion.t) :=
  _make_request GetStateCommissionAndCircuitBench states_data.

Definition get_districts (commission_id : Z) : M (list RawRegion.t) :=
  _make_request (GetDistrictCommissionByCommissionId commission_id)
                (fun env => districts_data env commission_id).

Definition get_categories : M (list RawCategory.t) :=
  _make_request CaseCategory categories_data.

Definition get_judges (commission_id : Z) : M (list RawJudge.t) :=
  _make_request (GetJudgeListForHearing commission_id)
                (fun env => judges_data env commission_id).

Definition search_cases (commission_id : Z) (search_type : Z) (search_value : string)
           (from_date to_date : string) (page size : option Z) (judge_id : string) : M json :=
  let date_request_type :=
    if (search_type =? 6) || (search_type =? 7) then 2 else 1 in
  let payload :=
    Payload.mk commission_id page size from_date to_date
               date_request_type search_type search_value judge_id in
  _make_request (GetCaseDetailsBySearchType payload)
                (fun env => cases_data env payload).

End JagritiClient.

(* ================================================================== *)
(** * mapper_service.py *)
(* ================================================================== *)

(** [list.sort(key=...)] for a [bool] key: stable, [False] before [True]. *)
Fixpoint insert_by_key {A : Type} (key : A -> bool) (x : A) (l : list A) : list A :=
  match l with
  | [] => [x]
  | y :: r => if implb (key x) (key y) then x :: l else y :: insert_by_key key x r
  end.

Fixpoint sort_by_key {A : Type} (key : A -> bool) (l : list A) : list A :=
  match l with
  | [] => []
  | x :: r => insert_by_key key x (sort_by_key key r)
  end.

Module MapperService.

(** [_normalize_text] *)
Definition _normalize_text (text : string) : string :=
  let normalized := upper (strip text) in
  let normalized := replace " " "" (replace ")" "" (replace "(" "" normalized)) in
  normalized.

(** [_fuzzy_match] *)
Definition _fuzzy_match (search_text target_text : string) : bool :=
  let search := _normalize_text search_text in
  let target := _normalize_text target_text in
  if String.eqb search target then true
  else if contains search target then true
  else false.

Definition format_region (s : RawRegion.t) : Region.t :=
  Region.mk (RawRegion.commissionId s) (RawRegion.commissionNameEn s)
            (RawRegion.circuitAdditionBenchStatus s) (RawRegion.activeStatus s).

(** The miss path of [get_all_states]: fetch, keep the active entries,
    cache, return. *)
Definition fetch_states : M (list Region.t) :=
  states_data <- JagritiClient.get_states ;;
  let filtered_states := map format_region (filter RawRegion.activeStatus states_data) in
  CacheService.set_states filtered_states ;;;
  ret filtered_states.

Definition get_all_states : M (list Region.t) :=
  valid <- CacheService.is_states_valid Settings.CACHE_TTL_STATES ;;
  if valid then
    cached_data <- CacheService.get_states ;;
    match cached_data with
    | Some ((_ :: _) as l) => ret l
    | _ => fetch_states
    end
  else fetch_states.

Definition find_state_by_name (state_name : string) : M Region.t :=
  states <- get_all_states ;;
  match find (fun state => _fuzzy_match state_name (Region.commission_name state)) states with
  | Some state => ret state
  | None => raise (StateNotFoundException state_name)
  end.

Definition get_commissions_by_state (state_id : Z) : M (list Region.t) :=
  cached_data <- CacheService.get_commissions state_id ;;
  match cached_data with
  | Some l => ret l
  | None =>
      districts_data <- JagritiClient.get_districts state_id ;;
      let formatted_districts :=
        map format_region (filter RawRegion.activeStatus districts_data) in
      CacheService.set_commissions state_id formatted_districts ;;;
      ret formatted_districts
  end.

(** Steps 4 to 6 of [find_commission_by_name]: collect the matches (each
    with its [is_circuit] flag), sort them by the flag, take the first. *)
Definition collect_matches (commission_name : string) (commissions : list Region.t)
  : list (Region.t * bool) :=
  map (fun commission => (commission, Region.is_circuit_bench commission))
      (filter (fun commission =>
                 _fuzzy_match commission_name (Region.commission_name commission))
              commissions).

Definition find_commission_by_name (state_name commission_name : string) : M Z :=
  state <- find_state_by_name state_name ;;
  let state_id := Region.commission_id state in
  commissions <- get_commissions_by_state state_id ;;
  match commissions with
  | [] => ret state_id
  | _ :: _ =>
      let matches := collect_matches commission_name commissions in
      match sort_by_key snd matches with
      | selected :: _ => ret (Region.commission_id (fst selected))
      | [] =>
          let available_commissions := map Region.commission_name commissions in
          raise (CommissionNotFoundException
                   ("Commission '" ++ commission_name ++ "' not found in state '"
                    ++ state_name ++ "'. Available commissions: "
                    ++ join ", " available_commissions))
      end
  end.

Definition format_category (c : RawCategory.t) : Category.t :=
  Category.mk (RawCategory.caseCategoryId c) (RawCategory.caseCategoryNameEn c).

Definition fetch_categories : M (list Category.t) :=
  categories_data <- JagritiClient.get_categories ;;
  let formatted_categories := map format_category categories_data in
  CacheService.set_categories formatted_categories ;;;
  ret formatted_categories.

Definition get_all_categories : M (list Category.t) :=
  valid <- CacheService.is_categories_valid Settings.CACHE_TTL_CATEGORIES ;;
  if valid then
    cached_data <- CacheService.get_categories ;;
    match cached_data with
    | Some ((_ :: _) as l) => ret l
    | _ => fetch_categories
    end
  else fetch_categories.

Definition find_category_by_name (category_name : string) : M Category.t :=
  categories <- get_all_categories ;;
  match find (fun category => _fuzzy_match category_name (Category.category_name category))
             categories with
  | Some category => ret category
  | None => raise (CategoryNotFoundException category_name)
  end.

Definition get_judges_by_commission (commission_id : Z) : M (list Judge.t) :=
  cached_data <- CacheService.get_judges commission_id ;;
  match cached_data with
  | Some l => ret l
  | None =>
      judges_data <- JagritiClient.get_judges commission_id ;;
      let formatted_judges :=
        map (fun j => Judge.mk (RawJudge.judgeId j) (RawJudge.judgeName j) commission_id)
            judges_data in
      CacheService.set_judges commission_id formatted_judges ;;;
      ret formatted_judges
  end.

Definition find_judge_by_name (commission_id : Z) (judge_name : string) : M Judge.t :=
  judges <- get_judges_by_commission commission_id ;;
  match find (fun judge => _fuzzy_match judge_name (Judge.judge_name judge)) judges with
  | Some judge => ret judge
  | None => raise (JudgeNotFoundException judge_name)
  end.

End MapperService.

(* ================================================================== *)
(** * case_service.py *)
(* ================================================================== *)

(** Truth value of an [Optional[str]] / [Optional[int]]. *)
Definition truthy_str (o : option string) : bool :=
  match o with
  | Some (String _ _) => true
  | _ => false
  end.

Definition truthy_int (o : option Z) : bool :=
  match o with
  | Some n => negb (n =? 0)
  | None => false
  end.

(** [str(v)] *)
Definition str_of_pyval (v : pyval) : string :=
  match v with
  | PNone => "None"
  | PBool true => "True"
  | PBool false => "False"
  | PInt n => str_of_int n
  | PStr s => s
  end.

(** The string behind an [Optional[str]] known not to be [None]. *)
Definition str_of_optional (o : option string) : string :=
  match o with Some s => s | None => "" end.

Definition pyval_of_int (o : option Z) : pyval :=
  match o with Some n => PInt n | None => PNone end.

Definition pyval_of_str (o : option string) : pyval :=
  match o with Some s => PStr s | None => PNone end.

Module CaseService.

(** pydantic's check of a [str] field and of an [Optional[str]] field. *)
Definition as_str (v : json) : option string :=
  match v with JStr s => Some s | _ => None end.

Definition as_optional_str (v : json) : option (option string) :=
  match v with
  | JNull => Some None
  | JStr s => Some (Some s)
  | _ => None
  end.

(** [_format_case_data]: a raw record that is no [dict], or whose fields
    [CaseResponse] refuses, raises [CaseDataException]; of pydantic's
    validation report only the kind is kept in the message. *)
Definition _format_case_data (raw_case : json) : result CaseResponse.t :=
  match raw_case with
  | JObj d =>
      match as_str (dict_get d "caseNumber" (JStr "")),
            as_str (dict_get d "caseStageName" (JStr "")),
            as_str (dict_get d "caseFilingDate" (JStr "")),
            as_str (dict_get d "complainantName" (JStr "")),
            as_optional_str (dict_get d "complainantAdvocateName" JNull),
            as_optional_str (dict_get d "respondentName" JNull),
            as_optional_str (dict_get d "respondentAdvocateName" JNull),
            as_optional_str (dict_get d "documentBase64" JNull)
      with
      | Some case_number, Some case_stage, Some filing_date, Some complainant,
        Some complainant_advocate, Some respondent, Some respondent_advocate,
        Some document_link =>
          Ok (CaseResponse.mk case_number case_stage filing_date complainant
                              complainant_advocate respondent respondent_advocate
                              document_link)
      | _, _, _, _, _, _, _, _ =>
          Raise (CaseDataException "Error formatting case data: validation error")
      end
  | _ =>
      Raise (CaseDataException
               ("Error formatting case data: " ++ no_attribute_get raw_case))
  end.

(** [_get_default_date_range] *)
Definition _get_default_date_range : M (string * string) :=
  t <- datetime_now ;;
  let current_year := year_of t in
  let from_date := str_of_int current_year ++ "-01-01" in
  let to_date := str_of_int current_year ++ "-12-31" in
  ret (from_date, to_date).

(** [data if isinstance(data, list) else data.get("content", [])] *)
Definition extract_cases (data : json) : M json :=
  match data with
  | JArr _ => ret data
  | JObj d => ret (dict_get d "content" (JArr []))
  | _ => raise (PyError (no_attribute_get data))
  end.

(** What [len(cases_data)] and [for raw_case in cases_data] make of the
    extracted value: a list gives its elements, a [dict] its keys, a
    string its characters; anything else has no [len]. *)
Definition iterate (cases_data : json) : M (list json) :=
  match cases_data with
  | JArr l => ret l
  | JObj d => ret (map (fun it => JStr (fst it)) d)
  | JStr s => ret (map (fun c => JStr (String c "")) (list_ascii_of_string s))
  | _ => raise (PyError (no_len cases_data))
  end.

(** The formatting loop: [all_cases.append] on success, [continue] on any
    exception. *)
Fixpoint format_loop (cases_data : list json) (all_cases : list CaseResponse.t)
  : list CaseResponse.t :=
  match cases_data with
  | [] => all_cases
  | raw_case :: rest =>
      match _format_case_data raw_case with
      | Ok formatted_case => format_loop rest (all_cases ++ [formatted_case])
      | Raise _ => format_loop rest all_cases
      end
  end.

Definition _search_cases_by_type
           (state_name commission_name search_value : string) (search_type : Z)
           (from_date to_date : option string) (page size : option Z) (judge_id : string)
  : M (list CaseResponse.t) :=
  commission_id <- MapperService.find_commission_by_name state_name commission_name ;;
  dates <- (if negb (truthy_str from_date) || negb (truthy_str to_date)
            then _get_default_date_range
            else ret (str_of_optional from_date, str_of_optional to_date)) ;;
  data <- JagritiClient.search_cases commission_id search_type search_value
                                     (fst dates) (snd dates) page size judge_id ;;
  cases_data <- extract_cases data ;;
  raw_cases <- iterate cases_data ;;
  ret (format_loop raw_cases []).

(** The five entry points that take a [CaseSearchRequest] differ in
    their [search_type] only. *)
Definition search_by (search_type : Z) (request : CaseSearchRequest.t)
  : M (list CaseResponse.t) :=
  _search_cases_by_type
    (CaseSearchRequest.state request) (CaseSearchRequest.commission request)
    (CaseSearchRequest.search_value request) search_type
    (CaseSearchRequest.from_date request) (CaseSearchRequest.to_date request)
    (CaseSearchRequest.page request) (CaseSearchRequest.size request) "".

Definition search_by_case_number := search_by 1.
Definition search_by_complainant := search_by 2.
Definition search_by_respondent := search_by 3.
Definition search_by_complainant_advocate := search_by 4.
Definition search_by_respondent_advocate := search_by 5.

(** The lines of [search_by_industry_type] before the shared operation:
    [category_id or category_name], with the name resolved when it is all
    there is. *)
Definition resolve_search_value (request : IndustryTypeSearchRequest.t) : M pyval :=
  let category_id := IndustryTypeSearchRequest.category_id request in
  let category_name := IndustryTypeSearchRequest.category_name request in
  let search_value :=
    if truthy_int category_id then pyval_of_int category_id
    else pyval_of_str category_name in
  if truthy_str category_name && negb (truthy_int category_id) then
    category <- MapperService.find_category_by_name (str_of_optional category_name) ;;
    ret (PStr (str_of_int (Category.category_id category)))
  else ret search_value.

Definition search_by_industry_type (request : IndustryTypeSearchRequest.t)
  : M (list CaseResponse.t) :=
  search_value <- resolve_search_value request ;;
  _search_cases_by_type
    (IndustryTypeSearchRequest.state request)
    (IndustryTypeSearchRequest.commission request)
    (str_of_pyval search_value) 6
    (IndustryTypeSearchRequest.from_date request)
    (IndustryTypeSearchRequest.to_date request)
    (IndustryTypeSearchRequest.page request)
    (IndustryTypeSearchRequest.size request) "".

(** The lines of [search_by_judge] before the shared operation. *)
Definition resolve_judge_id (request : JudgeSearchRequest.t) : M pyval :=
  let judge_id := JudgeSearchRequest.judge_id request in
  let judge_name := JudgeSearchRequest.judge_name request in
  if truthy_str judge_name && negb (truthy_int judge_id) then
    commission_id <- MapperService.find_commission_by_name
                       (JudgeSearchRequest.state request)
                       (JudgeSearchRequest.commission request) ;;
    judge <- MapperService.find_judge_by_name commission_id (str_of_optional judge_name) ;;
    ret (PInt (Judge.judge_id judge))
  else ret (pyval_of_int judge_id).

Definition search_by_judge (request : JudgeSearchRequest.t)
  : M (list CaseResponse.t) :=
  judge_id <- resolve_judge_id request ;;
  _search_cases_by_type
    (JudgeSearchRequest.state request) (JudgeSearchRequest.commission request)
    "" 7
    (JudgeSearchRequest.from_date request) (JudgeSearchRequest.to_date request)
    (JudgeSearchRequest.page request) (JudgeSearchRequest.size request)
    (str_of_pyval judge_id).

End CaseService.

(* ================================================================== *)
(** * api/routes/cases.py *)
(* ================================================================== *)

Module Routes.

(** [HTTPException(status_code, detail)] *)
Record HTTPException : Type := mk { status_code : Z; detail : string }.

(** What a route hands to the framework: the value it returns, or the
    [HTTPException] it raises. *)
Inductive reply (A : Type) : Type :=
| Returned (a : A)
| Raised (e : HTTPException).
Arguments Returned {A} a.
Arguments Raised {A} e.

(** The [try] every route wraps its service call in:
    [except JagritiAPIException as e] re-raises with the exception's status
    and message, [except Exception as e] with status 500. *)
Definition guarded {A : Type} (m : M A) : Env -> World -> reply A * World :=
  fun env w =>
    match m env w with
    | (Ok a, w') => (Returned a, w')
    | (Raise e, w') =>
        match exn_status_code e with
        | Some status_code => (Raised (mk status_code (exn_message e)), w')
        | None => (Raised (mk 500 ("Internal server error: " ++ exn_message e)), w')
        end
    end.

Definition get_states := guarded MapperService.get_all_states.

Definition get_commissions (state_id : Z) :=
  guarded (MapperService.get_commissions_by_state state_id).

Definition get_categories := guarded MapperService.get_all_categories.

Definition get_judges (commission_id : Z) :=
  guarded (MapperService.get_judges_by_commission commission_id).

Definition search_by_case_number (request : CaseSearchRequest.t) :=
  guarded (CaseService.search_by_case_number request).

Definition search_by_complainant (request : CaseSearchRequest.t) :=
  guarded (CaseService.search_by_complainant request).

Definition search_by_respondent (request : CaseSearchRequest.t) :=
  guarded (CaseService.search_by_respondent request).

Definition search_by_complainant_advocate (request : CaseSearchRequest.t) :=
  guarded (CaseService.search_by_complainant_advocate request).

Definition search_by_respondent_advocate (request : CaseSearchRequest.t) :=
  guarded (CaseService.search_by_respondent_advocate request).

Definition search_by_industry_type (request : IndustryTypeSearchRequest.t) :=
  guarded (CaseService.search_by_industry_type request).

Definition search_by_judge (request : JudgeSearchRequest.t) :=
  guarded (CaseService.search_by_judge request).

End Routes.

(* ================================================================== *)
(** * Observations and sample data *)
(* ================================================================== *)

(** Every character of [s] passes [p]. *)
Fixpoint all_chars (p : ascii -> bool) (s : string) : bool :=
  match s with
  | EmptyString => true
  | String c r => p c && all_chars p r
  end.

(** [s.isascii()]: every character of [s] is below U+0080. *)
Definition is_ascii (s : string) : bool :=
  all_chars (fun c => (N_of_ascii c <? 128)%N) s.

(** The only white space in [s] is the space character. *)
Definition plain_spaces (s : string) : bool :=
  all_chars (fun c => negb (isspace c) || Ascii.eqb c " ") s.

(** A character [_normalize_text] leaves alone. *)
Definition settled (c : ascii) : bool :=
  Ascii.eqb (upper_char c) c
  && negb (Ascii.eqb c "(") && negb (Ascii.eqb c ")") && negb (Ascii.eqb c " ").

(** The search calls among the requests sent. *)
Fixpoint search_calls (l : list Request) : list Payload.t :=
  match l with
  | [] => []
  | GetCaseDetailsBySearchType p :: r => p :: search_calls r
  | _ :: r => search_calls r
  end.

Definition is_reference (r : Request) : Prop :=
  match r with GetCaseDetailsBySearchType _ => False | _ => True end.

Definition is_region_lookup (r : Request) : Prop :=
  match r with
  | GetStateCommissionAndCircuitBench | GetDistrictCommissionByCommissionId _ => True
  | _ => False
  end.

(** The exceptions of the client, of region resolution, and of the shared
    search operation. *)
Definition api_error (e : exn) : Prop :=
  match e with
  | APITimeoutException | APIConnectionException | JagritiAPIException _ _ => True
  | _ => False
  end.

Definition region_error (e : exn) : Prop :=
  match e with
  | StateNotFoundException _ | CommissionNotFoundException _ => True
  | _ => api_error e
  end.

Definition search_error (e : exn) : Prop :=
  match e with
  | PyError _ => True
  | _ => region_error e
  end.

(** [m] sends only requests in [P], raises only exceptions in [E], and
    leaves the part [F] of the cache service as it was. *)
Definition respects {A T : Type} (P : Request -> Prop) (E : exn -> Prop)
           (F : CacheState -> T) (m : M A) : Prop :=
  forall env w,
    (exists l, sent (snd (m env w)) = (sent w ++ l)%list /\ Forall P l)
    /\ F (cache (snd (m env w))) = F (cache w)
    /\ (forall e, fst (m env w) = Raise e -> E e).

(** [F] does not look at the states or at the commissions of the cache;
    at the categories; at the judges. *)
Definition apart_from_regions {T : Type} (F : CacheState -> T) : Prop :=
  forall c s st cm,
    F (mkCache s st (categories_cache c) (categories_cache_time c)
               cm (judges_cache c) (cases_cache c)) = F c.

Definition apart_from_categories {T : Type} (F : CacheState -> T) : Prop :=
  forall c x xt,
    F (mkCache (states_cache c) (states_cache_time c) x xt
               (commissions_cache c) (judges_cache c) (cases_cache c)) = F c.

Definition apart_from_judges {T : Type} (F : CacheState -> T) : Prop :=
  forall c j,
    F (mkCache (states_cache c) (states_cache_time c)
               (categories_cache c) (categories_cache_time c)
               (commissions_cache c) j (cases_cache c)) = F c.

(** A request of the shared search operation: a region lookup, or the
    search itself with these three fields. *)
Definition search_request_of (search_type : Z) (search_value judge_id : string)
           (r : Request) : Prop :=
  match r with
  | GetCaseDetailsBySearchType p =>
      Payload.serchType p = search_type
      /\ Payload.serchTypeValue p = search_value
      /\ Payload.judgeId p = judge_id
  | _ => is_region_lookup r
  end.

(** The date range a search goes out with when the clock reads [dt_now]. *)
Definition date_range (from_date to_date : option string) (dt_now : Z) : string * string :=
  if negb (truthy_str from_date) || negb (truthy_str to_date)
  then (str_of_int (year_of dt_now) ++ "-01-01", str_of_int (year_of dt_now) ++ "-12-31")
  else (str_of_optional from_date, str_of_optional to_date).

(** The world once [req] has been sent from [w] and answered. *)
Definition after_request (env : Env) (req : Request) (w : World) : World :=
  elapse (attempt_duration env (List.length (sent w)))
         (mkWorld (cache w) (now w) (monotonic w) (sent w ++ [req])).

(** The formatted records of a batch, in its order. *)
Definition formatted (raws : list json) : list CaseResponse.t :=
  flat_map (fun raw => match CaseService._format_case_data raw with
                       | Ok c => [c]
                       | Raise _ => []
                       end) raws.


(** A small portal: one state with two commissions, one category, one
    judge of the same name in each commission. *)
Module Sample.
Definition gujarat : RawRegion.t := RawRegion.mk 11240000 "GUJARAT" false true.
Definition goa : RawRegion.t := RawRegion.mk 11300000 "GOA" false true.
Definition ahmedabad : RawRegion.t := RawRegion.mk 11240438 "Ahmedabad City" false true.
Definition surat : RawRegion.t := RawRegion.mk 11240500 "Surat" false true.
Definition banking : RawCategory.t := RawCategory.mk 43 "BANKING".

Definition a_case : json :=
  JObj [("caseNumber", JStr "DC/AB1/484/CC/21/344");
        ("caseStageName", JStr "ALLOWED");
        ("caseFilingDate", JStr "2021-12-28");
        ("complainantName", JStr "SMT. DARSHANA");
        ("respondentName", JNull)].
Definition another_case : json :=
  JObj [("caseNumber", JStr "DC/AB1/484/CC/21/345");
        ("caseStageName", JStr "PENDING");
        ("complainantName", JStr "SHRI RAMESH")].
Definition a_malformed_case : json :=
  JObj [("caseNumber", JNum 344); ("caseStageName", JStr "ALLOWED")].

Definition portal (outcome : nat -> Attempt) : Env :=
  mkEnv outcome (fun _ => seconds 1)
        [gujarat; goa]
        (fun id => if id =? 11240000 then [ahmedabad; surat] else [])
        [banking]
        (fun id => if id =? 11240438 then [RawJudge.mk 11446 "HON'BLE MR. President M.H.PATEL"]
                   else if id =? 11240500 then [RawJudge.mk 22001 "M.H.PATEL"]
                   else [])
        (fun _ => JArr [a_case; a_malformed_case; another_case]).

Definition env : Env := portal (fun _ => Answered).

(** The same portal when the first two requests time out. *)
Definition flaky : Env :=
  portal (fun n => if (n <? 2)%nat then TimedOut else Answered).

(** A portal that lists no state, no category and no judge. *)
Definition empty_portal : Env :=
  mkEnv (fun _ => Answered) (fun _ => seconds 1)
        [] (fun _ => []) [] (fun _ => []) (fun _ => JArr []).

(** A fresh process on 2026-11-06, local midnight. *)
Definition world : World :=
  mkWorld CacheService.init (seconds 1793923200) 0 [].

Definition request : CaseSearchRequest.t :=
  CaseSearchRequest.mk "GUJARAT" "Ahmedabad City" "DC/AB1/484/CC/21/344" None None (Some 0) (Some 30).

(** A tab between parentheses. *)
Definition tab_in_parentheses : string :=
  String "(" (String (ascii_of_N 9) (String ")" "")).

(** A state whose two commissions carry the same name, the circuit bench
    listed first. *)
Definition twin_portal : Env :=
  mkEnv (fun _ => Answered) (fun _ => 0)
        [RawRegion.mk 7 "S" false true]
        (fun _ => [RawRegion.mk 1 "X" true true; RawRegion.mk 2 "X" false true])
        [] (fun _ => []) (fun _ => JArr []).

Definition judge_request : JudgeSearchRequest.t :=
  JudgeSearchRequest.mk "GUJARAT" "Ahmedabad City" (Some "M.H.PATEL") None None None (Some 0) (Some 30).
End Sample.

(* ================================================================== *)
(** * Text lemmas *)
(* ================================================================== *)

Ltac by_cases_on_char c :=
  destruct c as [[] [] [] [] [] [] [] []]; try reflexivity; try discriminate.

Lemma upper_char_idem (c : ascii) : upper_char (upper_char c) = upper_char c.
Proof. by_cases_on_char c. Qed.

Lemma isspace_upper_char (c : ascii) : isspace (upper_char c) = isspace c.
Proof. by_cases_on_char c. Qed.

Lemma upper_char_space (c : ascii) :
  Ascii.eqb (upper_char c) " " = Ascii.eqb c " ".
Proof. by_cases_on_char c. Qed.

Lemma all_chars_impl (p q : ascii -> bool) (s : string) :
  (forall c, p c = true -> q c = true) ->
  all_chars p s = true -> all_chars q s = true.
Proof.
  intros Hpq. induction s as [|c r IH]; simpl; [reflexivity|].
  rewrite !andb_true_iff. intros [Hc Hr]. auto.
Qed.

Lemma all_chars_upper (p q : ascii -> bool) (s : string) :
  (forall c, p c = true -> q (upper_char c) = true) ->
  all_chars p s = true -> all_chars q (upper s) = true.
Proof.
  intros Hpq. induction s as [|c r IH]; simpl; [reflexivity|].
  rewrite !andb_true_iff. intros [Hc Hr]. auto.
Qed.

Lemma all_chars_lstrip (p : ascii -> bool) (s : string) :
  all_chars p s = true -> all_chars p (lstrip s) = true.
Proof.
  induction s as [|c r IH]; simpl; [reflexivity|].
  intros H. destruct (isspace c); [|exact H].
  apply andb_true_iff in H. apply IH, H.
Qed.

Lemma all_chars_rstrip (p : ascii -> bool) (s : string) :
  all_chars p s = true -> all_chars p (rstrip s) = true.
Proof.
  induction s as [|c r IH]; simpl; [reflexivity|].
  rewrite andb_true_iff. intros [Hc Hr]. specialize (IH Hr).
  destruct (rstrip r) as [|c' r'].
  - destruct (isspace c); simpl; [reflexivity|]. now rewrite Hc.
  - simpl. rewrite Hc. exact IH.
Qed.

Lemma all_chars_strip (p : ascii -> bool) (s : string) :
  all_chars p s = true -> all_chars p (strip s) = true.
Proof. intros H. unfold strip. now apply all_chars_rstrip, all_chars_lstrip. Qed.

(** Removing a character keeps what held of the others, and the character
    is gone. *)
Lemma all_chars_replace (p : ascii -> bool) (old : ascii) (s : string) :
  all_chars p s = true ->
  all_chars (fun c => p c && negb (Ascii.eqb c old)) (replace old "" s) = true.
Proof.
  induction s as [|c r IH]; simpl; [reflexivity|].
  rewrite andb_true_iff. intros [Hc Hr].
  destruct (Ascii.eqb c old) eqn:E; simpl.
  - now apply IH.
  - rewrite Hc, E. simpl. now apply IH.
Qed.

Lemma replace_absent (old : ascii) (s : string) :
  all_chars (fun c => negb (Ascii.eqb c old)) s = true -> replace old "" s = s.
Proof.
  induction s as [|c r IH]; simpl; [reflexivity|].
  rewrite andb_true_iff. intros [Hc Hr].
  apply negb_true_iff in Hc. rewrite Hc. f_equal. now apply IH.
Qed.

Lemma upper_fixed (s : string) :
  all_chars (fun c => Ascii.eqb (upper_char c) c) s = true -> upper s = s.
Proof.
  induction s as [|c r IH]; simpl; [reflexivity|].
  rewrite andb_true_iff. intros [Hc Hr].
  apply Ascii.eqb_eq in Hc. rewrite Hc. f_equal. now apply IH.
Qed.

Lemma lstrip_no_space (s : string) :
  all_chars (fun c => negb (isspace c)) s = true -> lstrip s = s.
Proof.
  destruct s as [|c r]; simpl; [reflexivity|].
  rewrite andb_true_iff. intros [Hc _].
  apply negb_true_iff in Hc. now rewrite Hc.
Qed.

Lemma rstrip_no_space (s : string) :
  all_chars (fun c => negb (isspace c)) s = true -> rstrip s = s.
Proof.
  induction s as [|c r IH]; simpl; [reflexivity|].
  rewrite andb_true_iff. intros [Hc Hr].
  rewrite (IH Hr). apply negb_true_iff in Hc.
  destruct r; [now rewrite Hc | reflexivity].
Qed.

(** The output of [_normalize_text] is upper-case and free of the three
    characters it removes. *)
Lemma normalize_settled (s : string) :
  all_chars settled (MapperService._normalize_text s) = true.
Proof.
  unfold MapperService._normalize_text, settled.
  do 3 apply all_chars_replace.
  apply all_chars_upper with (p := fun _ => true).
  - intros c _. rewrite upper_char_idem. apply Ascii.eqb_refl.
  - clear. induction (strip s); simpl; auto.
Qed.

(** On such a string only [strip] can still change something. *)
Lemma normalize_of_settled (y : string) :
  all_chars settled y = true -> MapperService._normalize_text y = strip y.
Proof.
  intros H. apply (all_chars_strip settled) in H.
  assert (Hpart : forall q : ascii -> bool,
             (forall c, settled c = true -> q c = true) ->
             all_chars q (strip y) = true).
  { intros q Hq. eapply all_chars_impl; [exact Hq | exact H]. }
  assert (Hsplit : forall c, settled c = true ->
             Ascii.eqb (upper_char c) c = true
             /\ negb (Ascii.eqb c "(") = true
             /\ negb (Ascii.eqb c ")") = true
             /\ negb (Ascii.eqb c " ") = true).
  { unfold settled. intros c Hc. rewrite !andb_true_iff in Hc. tauto. }
  unfold MapperService._normalize_text.
  rewrite (upper_fixed (strip y)) by (apply Hpart; intros c Hc; apply Hsplit, Hc).
  rewrite (replace_absent "(") by (apply Hpart; intros c Hc; apply Hsplit, Hc).
  rewrite (replace_absent ")") by (apply Hpart; intros c Hc; apply Hsplit, Hc).
  apply replace_absent. apply Hpart. intros c Hc. apply Hsplit, Hc.
Qed.

Lemma normalize_twice (s : string) :
  MapperService._normalize_text (MapperService._normalize_text s)
  = strip (MapperService._normalize_text s).
Proof. apply normalize_of_settled, normalize_settled. Qed.

(** With no white space but spaces in the input, none is left in the
    output. *)
Lemma normalize_no_space (s : string) :
  plain_spaces s = true ->
  all_chars (fun c => negb (isspace c)) (MapperService._normalize_text s) = true.
Proof.
  intros H. unfold MapperService._normalize_text.
  assert (Hup : all_chars (fun c => negb (isspace c) || Ascii.eqb c " ")
                          (upper (strip s)) = true).
  { apply all_chars_upper with (p := fun c => negb (isspace c) || Ascii.eqb c " ").
    - intros c Hc. now rewrite isspace_upper_char, upper_char_space.
    - apply all_chars_strip, H. }
  apply (all_chars_replace _ "(") in Hup.
  apply (all_chars_replace _ ")") in Hup.
  apply (all_chars_replace _ " ") in Hup.
  eapply all_chars_impl; [|exact Hup].
  cbv beta. intros c Hc.
  rewrite !andb_true_iff in Hc. destruct Hc as [[[Hc _] _] Hsp].
  apply orb_true_iff in Hc. destruct Hc as [Hc|Hc]; [exact Hc|].
  rewrite Hc in Hsp. discriminate.
Qed.

Lemma prefix_spec (s t : string) :
  prefix s t = true <-> exists post, t = s ++ post.
Proof.
  revert t. induction s as [|a s IH]; intros t.
  - split; [intros _; now exists t | intros _; now destruct t].
  - destruct t as [|b t]; simpl.
    + split; [discriminate | intros [post H]; discriminate].
    + destruct (ascii_dec a b) as [->|Hab].
      * rewrite IH. split; intros [post H]; exists post; [now rewrite H | now inversion H].
      * split; [discriminate | intros [post H]; injection H as Hh _; congruence].
Qed.

(** [search in target] is the substring relation. *)
Lemma contains_spec (s t : string) :
  contains s t = true <-> exists pre post, t = pre ++ s ++ post.
Proof.
  induction t as [|b t IH].
  - cbn [contains]. rewrite orb_false_r, prefix_spec. split.
    + intros [post H]. now exists "", post.
    + intros [pre [post H]]. destruct pre; [now exists post | discriminate].
  - cbn [contains]. rewrite orb_true_iff, prefix_spec, IH. split.
    + intros [[post H] | [pre [post H]]].
      * now exists "", post.
      * exists (String b pre), post. simpl. now rewrite H.
    + intros [pre [post H]]. destruct pre as [|c pre].
      * left. now exists post.
      * right. simpl in H. inversion H. now exists pre, post.
Qed.

(* ================================================================== *)
(** * Reasoning about runs *)
(* ================================================================== *)

Section Respects.
Context {T : Type} (P : Request -> Prop) (E : exn -> Prop) (F : CacheState -> T).

Lemma respects_ret {A : Type} (a : A) : respects P E F (ret a).
Proof.
  intros env w. cbn. split; [exists []; now rewrite app_nil_r|].
  split; [reflexivity | discriminate].
Qed.

Lemma respects_raise {A : Type} (e : exn) : E e -> respects P E F (@raise A e).
Proof.
  intros He env w. cbn. split; [exists []; now rewrite app_nil_r|].
  split; [reflexivity | now intros e' [= <-]].
Qed.

Lemma respects_bind {A B : Type} (m : M A) (k : A -> M B) :
  respects P E F m -> (forall a, respects P E F (k a)) ->
  respects P E F (bind m k).
Proof.
  intros Hm Hk env w. unfold bind.
  destruct (Hm env w) as [[l1 [Hs1 Hl1]] [Hf1 He1]].
  destruct (m env w) as [[a|e] w1]; cbn in *.
  - destruct (Hk a env w1) as [[l2 [Hs2 Hl2]] [Hf2 He2]].
    split; [|split; [congruence | exact He2]].
    exists (l1 ++ l2)%list. rewrite Hs2, Hs1, <- app_assoc. split; [reflexivity|].
    now apply Forall_app.
  - split; [now exists l1 | split; [exact Hf1 |]].
    intros e' [= <-]. now apply He1.
Qed.

Lemma respects_try {A : Type} (E' : exn -> Prop) (m : M A) (h : exn -> M A) :
  respects P E' F m -> (forall e, E' e -> respects P E F (h e)) ->
  respects P E F (try_except m h).
Proof.
  intros Hm Hh env w. unfold try_except.
  destruct (Hm env w) as [[l1 [Hs1 Hl1]] [Hf1 He1]].
  destruct (m env w) as [[a|e] w1]; cbn in *.
  - split; [now exists l1 | split; [exact Hf1 | discriminate]].
  - destruct (Hh e (He1 e eq_refl) env w1) as [[l2 [Hs2 Hl2]] [Hf2 He2]].
    split; [|split; [congruence | exact He2]].
    exists (l1 ++ l2)%list. rewrite Hs2, Hs1, <- app_assoc. split; [reflexivity|].
    now apply Forall_app.
Qed.

Lemma respects_get_cache : respects P E F get_cache.
Proof.
  intros env w. cbn. split; [exists []; now rewrite app_nil_r|].
  split; [reflexivity | discriminate].
Qed.

Lemma respects_datetime_now : respects P E F datetime_now.
Proof.
  intros env w. cbn. split; [exists []; now rewrite app_nil_r|].
  split; [reflexivity | discriminate].
Qed.

Lemma respects_time_monotonic : respects P E F time_monotonic.
Proof.
  intros env w. cbn. split; [exists []; now rewrite app_nil_r|].
  split; [reflexivity | discriminate].
Qed.

Lemma respects_sleep (d : Z) : respects P E F (sleep d).
Proof.
  intros env w. cbn. split; [exists []; now rewrite app_nil_r|].
  split; [reflexivity | discriminate].
Qed.

(** Storing a cache state that [F] cannot tell from the current one. *)
Lemma respects_update {A : Type} (f : CacheState -> World -> CacheState) (a : A) :
  (forall w, F (f (cache w) w) = F (cache w)) ->
  respects P E F (fun _ w => (Ok a, mkWorld (f (cache w) w) (now w) (monotonic w) (sent w))).
Proof.
  intros Hf env w. cbn. split; [exists []; now rewrite app_nil_r|].
  split; [apply Hf | discriminate].
Qed.
End Respects.

Lemma respects_weaken {A T : Type} (P P' : Request -> Prop) (E E' : exn -> Prop)
      (F : CacheState -> T) (m : M A) :
  (forall r, P r -> P' r) -> (forall e, E e -> E' e) ->
  respects P E F m -> respects P' E' F m.
Proof.
  intros HP HE Hm env w. destruct (Hm env w) as [[l [Hs Hl]] [Hf He]].
  split; [|split; [exact Hf | intros e H; apply HE, He, H]].
  exists l. split; [exact Hs|]. eapply Forall_impl; [|exact Hl]. exact HP.
Qed.

(* ------------------------------------------------------------------ *)
(** ** The client *)

(** One pass through the body of [_make_request]: the request is sent
    once, and what comes back is classified. *)
Lemma make_request_body_run {A : Type} (req : Request) (body : Env -> A)
      (env : Env) (w : World) :
  JagritiClient._make_request_body req body env w
  = (match attempt_outcome env (List.length (sent w)) with
     | Answered => Ok (body env)
     | TimedOut => Raise APITimeoutException
     | ConnectFailed => Raise APIConnectionException
     | Status code =>
         Raise (JagritiAPIException ("API returned error: " ++ str_of_int code) code)
     | Broken text => Raise (JagritiAPIException ("Unexpected error: " ++ text) 500)
     end,
     elapse (attempt_duration env (List.length (sent w)))
            (mkWorld (cache w) (now w) (monotonic w) (sent w ++ [req]))).
Proof.
  unfold JagritiClient._make_request_body, try_except, JagritiClient.httpx_send.
  destruct (attempt_outcome env (List.length (sent w))); reflexivity.
Qed.

(** The exceptions that leave the body are the service's own, none of
    which the retry predicate accepts: the decorated function is the body,
    run once. *)
Lemma make_request_once {A : Type} (req : Request) (body : Env -> A)
      (env : Env) (w : World) :
  JagritiClient._make_request req body env w
  = JagritiClient._make_request_body req body env w.
Proof.
  unfold JagritiClient._make_request, Tenacity.retry. cbn [Nat.sub Tenacity.retrying].
  unfold try_except at 1. rewrite make_request_body_run.
  destruct (attempt_outcome env (List.length (sent w))); reflexivity.
Qed.

Lemma respects_make_request {A T : Type} (P : Request -> Prop)
      (F : CacheState -> T) (req : Request) (body : Env -> A) :
  P req -> respects P api_error F (JagritiClient._make_request req body).
Proof.
  intros Hreq env w. rewrite make_request_once, make_request_body_run. cbn.
  split; [exists [req]; split; [reflexivity | now constructor]|].
  split; [reflexivity|].
  destruct (attempt_outcome env (List.length (sent w))); intros e [= <-]; exact I.
Qed.

(* ------------------------------------------------------------------ *)
(** ** The cache service *)

Ltac cache_method HF :=
  let env := fresh "env" in
  let w := fresh "w" in
  intros env w; cbn;
  repeat match goal with
         | |- context [TTLCache.get ?k ?t ?c] => destruct (TTLCache.get k t c)
         end;
  cbn;
  (split; [exists []; now rewrite app_nil_r|]);
  (split; [first [reflexivity | apply HF] | discriminate]).

Section CacheMethods.
Context {T : Type} (P : Request -> Prop) (E : exn -> Prop) (F : CacheState -> T).

Lemma respects_is_states_valid ttl :
  respects P E F (CacheService.is_states_valid ttl).
Proof. cache_method I. Qed.

Lemma respects_cache_get_states : respects P E F CacheService.get_states.
Proof. cache_method I. Qed.

Lemma respects_set_states data :
  apart_from_regions F -> respects P E F (CacheService.set_states data).
Proof. intros HF. cache_method HF. Qed.

Lemma respects_get_commissions state_id :
  apart_from_regions F -> respects P E F (CacheService.get_commissions state_id).
Proof. intros HF. cache_method HF. Qed.

Lemma respects_set_commissions state_id data :
  apart_from_regions F -> respects P E F (CacheService.set_commissions state_id data).
Proof. intros HF. cache_method HF. Qed.

Lemma respects_is_categories_valid ttl :
  respects P E F (CacheService.is_categories_valid ttl).
Proof. cache_method I. Qed.

Lemma respects_cache_get_categories : respects P E F CacheService.get_categories.
Proof. cache_method I. Qed.

Lemma respects_set_categories data :
  apart_from_categories F -> respects P E F (CacheService.set_categories data).
Proof. intros HF. cache_method HF. Qed.

Lemma respects_cache_get_judges commission_id :
  apart_from_judges F -> respects P E F (CacheService.get_judges commission_id).
Proof. intros HF. cache_method HF. Qed.

Lemma respects_set_judges commission_id data :
  apart_from_judges F -> respects P E F (CacheService.set_judges commission_id data).
Proof. intros HF. cache_method HF. Qed.
End CacheMethods.

(* ------------------------------------------------------------------ *)
(** ** The mapper *)

(** Peels a run apart along its binds and branches. *)
Ltac run_apart :=
  repeat match goal with
         | |- respects _ _ _ (ret _) => apply respects_ret
         | |- respects _ _ _ (bind _ _) => apply respects_bind; [|intros ?]
         | |- respects _ _ _ (match ?x with _ => _ end) => destruct x
         end.

Section Mapper.
Context {T : Type} (P : Request -> Prop) (E : exn -> Prop) (F : CacheState -> T).

Lemma respects_client {A : Type} (req : Request) (body : Env -> A) :
  P req -> (forall e, api_error e -> E e) ->
  respects P E F (JagritiClient._make_request req body).
Proof.
  intros HP HE. eapply respects_weaken; [| exact HE | apply respects_make_request, HP].
  auto.
Qed.

Hypothesis HE : forall e, api_error e -> E e.

Section Regions.
Hypothesis HP : forall r, is_region_lookup r -> P r.
Hypothesis HF : apart_from_regions F.

Lemma respects_fetch_states : respects P E F MapperService.fetch_states.
Proof.
  unfold MapperService.fetch_states. run_apart.
  - apply respects_client; [apply HP; exact I | exact HE].
  - apply respects_set_states, HF.
Qed.

Lemma respects_get_all_states : respects P E F MapperService.get_all_states.
Proof.
  unfold MapperService.get_all_states. run_apart;
    auto using respects_is_states_valid, respects_cache_get_states,
               respects_fetch_states.
Qed.

Lemma respects_find_state_by_name state_name :
  (forall n, E (StateNotFoundException n)) ->
  respects P E F (MapperService.find_state_by_name state_name).
Proof.
  intros Hnf. unfold MapperService.find_state_by_name. run_apart.
  - apply respects_get_all_states.
  - apply respects_raise, Hnf.
Qed.

Lemma respects_get_commissions_by_state state_id :
  respects P E F (MapperService.get_commissions_by_state state_id).
Proof.
  unfold MapperService.get_commissions_by_state. run_apart.
  - apply respects_get_commissions, HF.
  - apply respects_client; [apply HP; exact I | exact HE].
  - apply respects_set_commissions, HF.
Qed.

Lemma respects_find_commission_by_name state_name commission_name :
  (forall e, region_error e -> E e) ->
  respects P E F (MapperService.find_commission_by_name state_name commission_name).
Proof.
  intros Hnf. unfold MapperService.find_commission_by_name. run_apart.
  - apply respects_find_state_by_name. intros n. apply Hnf. exact I.
  - apply respects_get_commissions_by_state.
  - apply respects_raise, Hnf. exact I.
Qed.
End Regions.

Lemma respects_get_all_categories :
  P CaseCategory -> apart_from_categories F ->
  respects P E F MapperService.get_all_categories.
Proof.
  intros HP HF.
  assert (Hfetch : respects P E F MapperService.fetch_categories).
  { unfold MapperService.fetch_categories. run_apart.
    - apply respects_client; [exact HP | exact HE].
    - apply respects_set_categories, HF. }
  unfold MapperService.get_all_categories. run_apart;
    auto using respects_is_categories_valid, respects_cache_get_categories.
Qed.

Lemma respects_find_category_by_name category_name :
  P CaseCategory -> apart_from_categories F ->
  (forall n, E (CategoryNotFoundException n)) ->
  respects P E F (MapperService.find_category_by_name category_name).
Proof.
  intros HP HF Hnf. unfold MapperService.find_category_by_name. run_apart.
  - apply respects_get_all_categories; assumption.
  - apply respects_raise, Hnf.
Qed.

Lemma respects_get_judges_by_commission commission_id :
  P (GetJudgeListForHearing commission_id) -> apart_from_judges F ->
  respects P E F (MapperService.get_judges_by_commission commission_id).
Proof.
  intros HP HF. unfold MapperService.get_judges_by_commission. run_apart.
  - apply respects_cache_get_judges, HF.
  - apply respects_client; [exact HP | exact HE].
  - apply respects_set_judges, HF.
Qed.

Lemma respects_find_judge_by_name commission_id judge_name :
  P (GetJudgeListForHearing commission_id) -> apart_from_judges F ->
  (forall n, E (JudgeNotFoundException n)) ->
  respects P E F (MapperService.find_judge_by_name commission_id judge_name).
Proof.
  intros HP HF Hnf. unfold MapperService.find_judge_by_name. run_apart.
  - apply respects_get_judges_by_commission; assumption.
  - apply respects_raise, Hnf.
Qed.
End Mapper.

(* ------------------------------------------------------------------ *)
(** ** The search operation *)

Lemma search_calls_app (l1 l2 : list Request) :
  search_calls (l1 ++ l2) = (search_calls l1 ++ search_calls l2)%list.
Proof.
  induction l1 as [|r l1 IH]; [reflexivity|].
  destruct r; cbn; now rewrite ?IH.
Qed.

Lemma search_calls_reference (l : list Request) :
  Forall is_reference l -> search_calls l = [].
Proof.
  induction 1 as [|r l Hr _ IH]; [reflexivity|].
  destruct r; cbn in *; [assumption .. | contradiction].
Qed.

Lemma region_lookup_is_reference (r : Request) : is_region_lookup r -> is_reference r.
Proof. destruct r; cbn; auto. Qed.

(** A run that sends reference requests only leaves the search calls as
    they were. *)
Lemma reference_run_search_calls {A : Type} (E : exn -> Prop) (m : M A) env w :
  respects is_reference E (fun _ => tt) m ->
  search_calls (sent (snd (m env w))) = search_calls (sent w).
Proof.
  intros Hm. destruct (Hm env w) as [[l [Hs Hl]] _].
  now rewrite Hs, search_calls_app, (search_calls_reference l Hl), app_nil_r.
Qed.

Lemma find_commission_search_calls sn cn env w :
  search_calls (sent (snd (MapperService.find_commission_by_name sn cn env w)))
  = search_calls (sent w).
Proof.
  apply (reference_run_search_calls region_error).
  apply respects_find_commission_by_name; auto using region_lookup_is_reference.
  - destruct e; cbn; tauto.
  - intros c s st cm. reflexivity.
Qed.

Lemma format_loop_formatted (raws : list json) (acc : list CaseResponse.t) :
  CaseService.format_loop raws acc = (acc ++ formatted raws)%list.
Proof.
  revert acc. induction raws as [|raw raws IH]; intros acc; cbn.
  - now rewrite app_nil_r.
  - destruct (CaseService._format_case_data raw) as [c|e]; rewrite IH.
    + now rewrite <- app_assoc.
    + reflexivity.
Qed.

Lemma bind_run {A B : Type} (m : M A) (k : A -> M B) env w :
  bind m k env w
  = match m env w with
    | (Ok a, w') => k a env w'
    | (Raise e, w') => (Raise e, w')
    end.
Proof. reflexivity. Qed.

(** Choosing the date range reads the clock and nothing else. *)
Lemma dates_run (fd td : option string) env w :
  (if negb (truthy_str fd) || negb (truthy_str td)
   then CaseService._get_default_date_range
   else ret (str_of_optional fd, str_of_optional td)) env w
  = (Ok (date_range fd td (now w)), w).
Proof.
  unfold date_range. destruct (negb (truthy_str fd) || negb (truthy_str td)); reflexivity.
Qed.

(** The search call: sent once, whatever it meets. *)
Lemma search_cases_run cid st sv f t pg sz jid env w :
  JagritiClient.search_cases cid st sv f t pg sz jid env w
  = let p := Payload.mk cid pg sz f t (if (st =? 6) || (st =? 7) then 2 else 1) st sv jid in
    (match attempt_outcome env (List.length (sent w)) with
     | Answered => Ok (cases_data env p)
     | TimedOut => Raise APITimeoutException
     | ConnectFailed => Raise APIConnectionException
     | Status code =>
         Raise (JagritiAPIException ("API returned error: " ++ str_of_int code) code)
     | Broken text => Raise (JagritiAPIException ("Unexpected error: " ++ text) 500)
     end,
     after_request env (GetCaseDetailsBySearchType p) w).
Proof.
  unfold JagritiClient.search_cases. now rewrite make_request_once, make_request_body_run.
Qed.

(** Reading the records out of the answer touches nothing. *)
Lemma records_world (data : json) env w :
  snd ((cases_data <- CaseService.extract_cases data ;;
        raw_cases <- CaseService.iterate cases_data ;;
        ret (CaseService.format_loop raw_cases [])) env w) = w.
Proof.
  destruct data as [| | | |l|d]; try reflexivity.
  cbn. destruct (dict_get d "content" (JArr [])); reflexivity.
Qed.

Lemma search_cases_by_type_world env w sn cn sv st fd td pg sz jid cid w1 :
  MapperService.find_commission_by_name sn cn env w = (Ok cid, w1) ->
  snd (CaseService._search_cases_by_type sn cn sv st fd td pg sz jid env w)
  = after_request env
      (GetCaseDetailsBySearchType
         (Payload.mk cid pg sz (fst (date_range fd td (now w1)))
                     (snd (date_range fd td (now w1)))
                     (if (st =? 6) || (st =? 7) then 2 else 1) st sv jid))
      w1.
Proof.
  intros Hres. unfold CaseService._search_cases_by_type.
  rewrite bind_run, Hres, bind_run, dates_run, bind_run, search_cases_run. cbv zeta.
  destruct (attempt_outcome env (List.length (sent w1))); try reflexivity.
  apply records_world.
Qed.

Lemma search_cases_by_type_result env w sn cn sv st fd td pg sz jid cid w1 data raws :
  MapperService.find_commission_by_name sn cn env w = (Ok cid, w1) ->
  attempt_outcome env (List.length (sent w1)) = Answered ->
  cases_data env
    (Payload.mk cid pg sz (fst (date_range fd td (now w1)))
                (snd (date_range fd td (now w1)))
                (if (st =? 6) || (st =? 7) then 2 else 1) st sv jid) = data ->
  data = JArr raws
  \/ (exists d, data = JObj d /\ dict_get d "content" (JArr []) = JArr raws) ->
  fst (CaseService._search_cases_by_type sn cn sv st fd td pg sz jid env w)
  = Ok (formatted raws).
Proof.
  intros Hres Hans Hdata Hshape. unfold CaseService._search_cases_by_type.
  rewrite bind_run, Hres, bind_run, dates_run, bind_run, search_cases_run. cbv zeta.
  rewrite Hans, Hdata.
  destruct Hshape as [-> | [d [-> Hd]]]; cbn; rewrite ?Hd; cbn;
    now rewrite format_loop_formatted.
Qed.

Lemma respects_search_cases_by_type {T : Type} (F : CacheState -> T)
      sn cn sv st fd td pg sz jid :
  apart_from_regions F ->
  respects (search_request_of st sv jid) search_error F
           (CaseService._search_cases_by_type sn cn sv st fd td pg sz jid).
Proof.
  intros HF. unfold CaseService._search_cases_by_type.
  apply respects_bind; [|intros cid].
  { apply respects_find_commission_by_name; auto.
    - destruct e; cbn; tauto.
    - destruct r; cbn; tauto.
    - destruct e; cbn; tauto. }
  apply respects_bind; [|intros dates].
  { destruct (negb (truthy_str fd) || negb (truthy_str td)).
    - unfold CaseService._get_default_date_range. run_apart. apply respects_datetime_now.
    - apply respects_ret. }
  apply respects_bind; [|intros data].
  { unfold JagritiClient.search_cases. apply respects_client.
    - cbn. auto.
    - destruct e; cbn; tauto. }
  apply respects_bind; [|intros cases].
  { unfold CaseService.extract_cases. destruct data;
      first [apply respects_ret | apply respects_raise; exact I]. }
  apply respects_bind; [|intros raws; apply respects_ret].
  unfold CaseService.iterate. destruct cases;
    first [apply respects_ret | apply respects_raise; exact I].
Qed.

(* ================================================================== *)
(** * Name matching *)
(* ================================================================== *)

(** C5, as the code has it: [strip] removes every kind of white space at
    the two ends, the replacements remove the space character only, so a
    tab or line break laid bare by the removal of a parenthesis survives
    one normalisation and falls to the next. *)
Lemma normalization_not_idempotent :
  MapperService._normalize_text (MapperService._normalize_text Sample.tab_in_parentheses)
  <> MapperService._normalize_text Sample.tab_in_parentheses.
Proof. vm_compute. discriminate. Qed.

(** C5 (amended): on ASCII strings, normalising twice is normalising once
    and stripping the result, hence normalisation is idempotent on every
    ASCII string whose only white space is the space character; it
    ignores case, spaces and parentheses, as in [normalize
    "Mumbai (Suburban)" = normalize "MUMBAI SUBURBAN"]; two ASCII names
    match iff they are equal after normalisation or the normalised search
    term occurs in the normalised candidate; and an ASCII name matches
    itself. *)
Theorem normalization_and_matching :
  (forall s,
      is_ascii s = true ->
      MapperService._normalize_text (MapperService._normalize_text s)
      = strip (MapperService._normalize_text s))
  /\ (forall s,
         is_ascii s = true ->
         plain_spaces s = true ->
         MapperService._normalize_text (MapperService._normalize_text s)
         = MapperService._normalize_text s)
  /\ MapperService._normalize_text "Mumbai (Suburban)"
     = MapperService._normalize_text "MUMBAI SUBURBAN"
  /\ (forall a b,
         is_ascii a = true -> is_ascii b = true ->
         (MapperService._fuzzy_match a b = true <->
          MapperService._normalize_text a = MapperService._normalize_text b
          \/ exists pre post,
              MapperService._normalize_text b
              = pre ++ MapperService._normalize_text a ++ post))
  /\ (forall a, is_ascii a = true -> MapperService._fuzzy_match a a = true).
Proof.
  split; [intros s _; apply normalize_twice|].
  split.
  { intros s _ Hs. rewrite normalize_twice. unfold strip.
    pose proof (normalize_no_space s Hs) as Hn.
    now rewrite (lstrip_no_space _ Hn), (rstrip_no_space _ Hn). }
  split; [reflexivity|].
  split.
  - intros a b _ _. unfold MapperService._fuzzy_match.
    destruct (String.eqb_spec (MapperService._normalize_text a)
                              (MapperService._normalize_text b)) as [Heq|Hne].
    + split; [now left | reflexivity].
    + destruct (contains (MapperService._normalize_text a)
                         (MapperService._normalize_text b)) eqn:Hc.
      * split; [intros _; right; now apply contains_spec | reflexivity].
      * split; [discriminate|]. intros [Heq|Hsub]; [contradiction|].
        apply contains_spec in Hsub. congruence.
  - intros a _. unfold MapperService._fuzzy_match. now rewrite String.eqb_refl.
Qed.

Lemma normalization_and_matching_witness :
  is_ascii " Mumbai (Suburban) " = true
  /\ plain_spaces " Mumbai (Suburban) " = true
  /\ MapperService._normalize_text (MapperService._normalize_text " Mumbai (Suburban) ")
     = MapperService._normalize_text " Mumbai (Suburban) ".
Proof.
  split; [reflexivity|]. split; [reflexivity|].
  apply (proj1 (proj2 normalization_and_matching)); reflexivity.
Defined.

(* ================================================================== *)
(** * Commission resolution *)
(* ================================================================== *)

(** A stable sort on a [bool] key puts the [False] items first, each group
    in its old order. *)
Lemma insert_by_key_true {A : Type} (key : A -> bool) (x : A) (front back : list A) :
  key x = true ->
  Forall (fun y => key y = false) front ->
  Forall (fun y => key y = true) back ->
  insert_by_key key x (front ++ back) = (front ++ x :: back)%list.
Proof.
  intros Hx Hfront Hback. induction Hfront as [|y front Hy _ IH]; cbn.
  - destruct Hback as [|z back Hz _]; cbn; [reflexivity|]. now rewrite Hx, Hz.
  - rewrite Hx, Hy. cbn. now rewrite IH.
Qed.

Lemma insert_by_key_false {A : Type} (key : A -> bool) (x : A) (l : list A) :
  key x = false -> insert_by_key key x l = x :: l.
Proof. intros Hx. destruct l; cbn; [reflexivity|]. now rewrite Hx. Qed.

Lemma sort_by_key_partition {A : Type} (key : A -> bool) (l : list A) :
  sort_by_key key l = (filter (fun y => negb (key y)) l ++ filter key l)%list.
Proof.
  induction l as [|x l IH]; [reflexivity|].
  cbn [sort_by_key filter]. rewrite IH. destruct (key x) eqn:Hx; cbn [negb].
  - apply insert_by_key_true; [exact Hx | |]; apply Forall_forall; intros y Hy;
      apply filter_In in Hy; destruct Hy as [_ Hy]; [now apply negb_true_iff | exact Hy].
  - now apply insert_by_key_false.
Qed.

Lemma find_some_filter {A : Type} (p : A -> bool) (l : list A) (x : A) :
  find p l = Some x -> exists r, filter p l = x :: r.
Proof.
  induction l as [|y l IH]; cbn; [discriminate|].
  destruct (p y) eqn:Hy.
  - intros [= ->]. now exists (filter p l).
  - exact IH.
Qed.

Lemma find_none_filter {A : Type} (p : A -> bool) (l : list A) :
  find p l = None -> filter p l = [].
Proof.
  induction l as [|y l IH]; cbn; [reflexivity|].
  destruct (p y); [discriminate | exact IH].
Qed.

(** With no match among the ones [q] singles out, the first match is the
    first of the others. *)
Lemma find_refine {A : Type} (p q : A -> bool) (l : list A) (x : A) :
  find (fun y => p y && negb (q y)) l = None ->
  find p l = Some x ->
  find (fun y => p y && q y) l = Some x.
Proof.
  induction l as [|y l IH]; cbn; [discriminate|].
  destruct (p y), (q y); cbn; try discriminate; auto.
Qed.

(** What [find_commission_by_name] selects among the commissions: the
    matches that are no circuit bench in list order, then the others. *)
Lemma sorted_matches (commission_name : string) (commissions : list Region.t) :
  sort_by_key snd (MapperService.collect_matches commission_name commissions)
  = map (fun c => (c, Region.is_circuit_bench c))
        (filter (fun c => MapperService._fuzzy_match commission_name (Region.commission_name c)
                          && negb (Region.is_circuit_bench c)) commissions
         ++ filter (fun c => MapperService._fuzzy_match commission_name (Region.commission_name c)
                             && Region.is_circuit_bench c) commissions).
Proof.
  rewrite sort_by_key_partition. unfold MapperService.collect_matches.
  rewrite !filter_map_swap, map_app. cbn [snd].
  f_equal; f_equal; induction commissions as [|c l IH]; cbn; try reflexivity;
    destruct (MapperService._fuzzy_match commission_name (Region.commission_name c));
    cbn; rewrite IH; reflexivity.
Qed.

(** C3: among the commissions whose name matches, one that is no circuit
    bench outranks every circuit bench, and within a bench type the first
    in the upstream list wins; for the list [{1, "X", circuit};
    {2, "X", not circuit}] the name "X" resolves to 2. *)
Theorem commission_tie_break :
  forall env w state_name commission_name state w1 commissions w2,
    MapperService.find_state_by_name state_name env w = (Ok state, w1) ->
    MapperService.get_commissions_by_state (Region.commission_id state) env w1
    = (Ok commissions, w2) ->
    commissions <> [] ->
    let matching c :=
      MapperService._fuzzy_match commission_name (Region.commission_name c) in
    let resolved :=
      MapperService.find_commission_by_name state_name commission_name env w in
    (forall c,
        find (fun c => matching c && negb (Region.is_circuit_bench c)) commissions = Some c ->
        resolved = (Ok (Region.commission_id c), w2))
    /\ (forall c,
           find (fun c => matching c && negb (Region.is_circuit_bench c)) commissions = None ->
           find matching commissions = Some c ->
           resolved = (Ok (Region.commission_id c), w2))
    /\ (forall a1 a2,
           commission_name = "X" ->
           commissions = [Region.mk 1 "X" true a1; Region.mk 2 "X" false a2] ->
           resolved = (Ok 2, w2)).
Proof.
  intros env w state_name commission_name state w1 commissions w2 Hstate Hcomm Hne
         matching resolved.
  assert (Hrun : resolved
                 = match sort_by_key snd
                           (MapperService.collect_matches commission_name commissions) with
                   | selected :: _ => (Ok (Region.commission_id (fst selected)), w2)
                   | [] =>
                       (Raise (CommissionNotFoundException
                                 ("Commission '" ++ commission_name
                                  ++ "' not found in state '" ++ state_name
                                  ++ "'. Available commissions: "
                                  ++ join ", " (map Region.commission_name commissions))),
                        w2)
                   end).
  { unfold resolved, MapperService.find_commission_by_name.
    rewrite bind_run, Hstate, bind_run, Hcomm.
    destruct commissions as [|c0 rest]; [contradiction|].
    destruct (sort_by_key snd (MapperService.collect_matches commission_name (c0 :: rest)));
      reflexivity. }
  assert (Hfirst : forall c,
             find (fun c => matching c && negb (Region.is_circuit_bench c)) commissions = Some c ->
             resolved = (Ok (Region.commission_id c), w2)).
  { intros c Hc. rewrite Hrun, sorted_matches. cbv beta delta [matching] in Hc.
    destruct (find_some_filter _ _ _ Hc) as [r Hr]. now rewrite Hr. }
  assert (Hsecond : forall c,
             find (fun c => matching c && negb (Region.is_circuit_bench c)) commissions = None ->
             find matching commissions = Some c ->
             resolved = (Ok (Region.commission_id c), w2)).
  { intros c Hnone Hc. rewrite Hrun, sorted_matches.
    pose proof (find_refine matching Region.is_circuit_bench _ _ Hnone Hc) as Hcirc.
    cbv beta delta [matching] in Hnone, Hcirc.
    rewrite (find_none_filter _ _ Hnone).
    destruct (find_some_filter _ _ _ Hcirc) as [r Hr].
    now rewrite Hr. }
  split; [exact Hfirst|]. split; [exact Hsecond|].
  intros a1 a2 Hname Hlist.
  apply (Hfirst (Region.mk 2 "X" false a2)).
  subst commissions. unfold matching. rewrite Hname. reflexivity.
Qed.

Lemma commission_tie_break_witness :
  fst (MapperService.find_commission_by_name "S" "X" Sample.twin_portal Sample.world) = Ok 2.
Proof.
  assert (H := fun st w1 cs w2 H1 H2 H3 =>
             proj2 (proj2 (commission_tie_break Sample.twin_portal Sample.world "S" "X"
                                                st w1 cs w2 H1 H2 H3))).
  cbv zeta in H.
  erewrite H; [reflexivity | vm_compute; reflexivity | vm_compute; reflexivity
               | discriminate | reflexivity | reflexivity].
Defined.

(** C4: under a state whose commission list is empty, any commission name
    resolves to the state's own id, and no commission-not-found error is
    raised. *)
Theorem empty_commission_list_resolves_to_state :
  forall env w state_name commission_name state w1 w2,
    MapperService.find_state_by_name state_name env w = (Ok state, w1) ->
    MapperService.get_commissions_by_state (Region.commission_id state) env w1
    = (Ok [], w2) ->
    MapperService.find_commission_by_name state_name commission_name env w
    = (Ok (Region.commission_id state), w2)
    /\ forall msg,
        fst (MapperService.find_commission_by_name state_name commission_name env w)
        <> Raise (CommissionNotFoundException msg).
Proof.
  intros env w state_name commission_name state w1 w2 Hstate Hcomm.
  assert (Hrun : MapperService.find_commission_by_name state_name commission_name env w
                 = (Ok (Region.commission_id state), w2)).
  { unfold MapperService.find_commission_by_name.
    now rewrite bind_run, Hstate, bind_run, Hcomm. }
  split; [exact Hrun|]. intros msg. rewrite Hrun. discriminate.
Qed.

Lemma empty_commission_list_resolves_to_state_witness :
  fst (MapperService.find_commission_by_name "GOA" "Panaji" Sample.env Sample.world)
  = Ok 11300000.
Proof.
  assert (H := fun st w1 w2 H1 H2 =>
             proj1 (empty_commission_list_resolves_to_state
                      Sample.env Sample.world "GOA" "Panaji" st w1 w2 H1 H2)).
  erewrite H; cycle 1; [vm_compute; reflexivity | vm_compute; reflexivity | reflexivity].
Defined.
(* ================================================================== *)
(** * The retrying client *)
(* ================================================================== *)

(** C2, on the code: the [except] clauses inside [_make_request] turn
    httpx's timeout and connection errors into the service's own
    exceptions before the [retry] decorator sees them, and its predicate
    accepts httpx's only.  So every call sends its request exactly once;
    on a portal whose first two requests time out and whose third would be
    answered, the call raises [APITimeoutException] after one request. *)
Theorem transport_failure_is_not_retried :
  (forall (A : Type) (req : Request) (body : Env -> A) env w,
      sent (snd (JagritiClient._make_request req body env w)) = (sent w ++ [req])%list)
  /\ fst (JagritiClient._make_request GetStateCommissionAndCircuitBench states_data
                                      Sample.flaky Sample.world)
     = Raise APITimeoutException
  /\ sent (snd (JagritiClient._make_request GetStateCommissionAndCircuitBench states_data
                                            Sample.flaky Sample.world))
     = [GetStateCommissionAndCircuitBench]
  /\ attempt_outcome Sample.flaky 2 = Answered.
Proof.
  split.
  { intros A req body env w. now rewrite make_request_once, make_request_body_run. }
  split; [|split]; rewrite ?make_request_once, ?make_request_body_run; reflexivity.
Qed.

(* ================================================================== *)
(** * Formatting the records *)
(* ================================================================== *)

(** C8: a record whose formatting fails is skipped and the others are
    returned formatted, in their order, the batch never aborted; of three
    records with a malformed second one, exactly the first and the third
    come back. *)
Theorem malformed_records_are_skipped :
  forall env w sn cn sv st fd td pg sz jid cid w1 raws,
    MapperService.find_commission_by_name sn cn env w = (Ok cid, w1) ->
    attempt_outcome env (List.length (sent w1)) = Answered ->
    (forall p,
        cases_data env p = JArr raws
        \/ exists d, cases_data env p = JObj d
                     /\ dict_get d "content" (JArr []) = JArr raws) ->
    let result :=
      fst (CaseService._search_cases_by_type sn cn sv st fd td pg sz jid env w) in
    result = Ok (formatted raws)
    /\ (forall r1 r2 r3 c1 c3 e,
           raws = [r1; r2; r3] ->
           CaseService._format_case_data r1 = Ok c1 ->
           CaseService._format_case_data r2 = Raise e ->
           CaseService._format_case_data r3 = Ok c3 ->
           result = Ok [c1; c3]).
Proof.
  intros env w sn cn sv st fd td pg sz jid cid w1 raws Hres Hans Hdata result.
  assert (Hall : result = Ok (formatted raws)).
  { unfold result. eapply search_cases_by_type_result; eauto. }
  split; [exact Hall|].
  intros r1 r2 r3 c1 c3 e -> H1 H2 H3. rewrite Hall.
  unfold formatted. cbn. now rewrite H1, H2, H3.
Qed.

Lemma malformed_records_are_skipped_witness :
  exists c1 c3,
    CaseService._format_case_data Sample.a_case = Ok c1
    /\ CaseService._format_case_data Sample.another_case = Ok c3
    /\ fst (CaseService.search_by_case_number Sample.request Sample.env Sample.world)
       = Ok [c1; c3].
Proof.
  eexists. eexists. split; [reflexivity|]. split; [reflexivity|].
  unfold CaseService.search_by_case_number, CaseService.search_by.
  refine (proj2 (malformed_records_are_skipped
                   Sample.env Sample.world "GUJARAT" "Ahmedabad City" _ _ _ _ _ _ _
                   11240438
                   (snd (MapperService.find_commission_by_name
                           "GUJARAT" "Ahmedabad City" Sample.env Sample.world))
                   [Sample.a_case; Sample.a_malformed_case; Sample.another_case]
                   _ _ (fun p => or_introl eq_refl))
                _ _ _ _ _ _ eq_refl eq_refl eq_refl eq_refl).
  - vm_compute. reflexivity.
  - vm_compute. reflexivity.
Defined.

(* ================================================================== *)
(** * The search call *)
(* ================================================================== *)

Lemma ignores_cache_parts :
  apart_from_regions (fun _ : CacheState => tt)
  /\ apart_from_categories (fun _ : CacheState => tt)
  /\ apart_from_judges (fun _ : CacheState => tt).
Proof. repeat split. Qed.

(** Resolving a category or a judge sends reference requests only. *)
Lemma resolve_search_value_search_calls request env w :
  search_calls (sent (snd (CaseService.resolve_search_value request env w)))
  = search_calls (sent w).
Proof.
  apply (reference_run_search_calls (fun _ => True)).
  unfold CaseService.resolve_search_value.
  destruct (truthy_str (IndustryTypeSearchRequest.category_name request)
            && negb (truthy_int (IndustryTypeSearchRequest.category_id request)));
    run_apart.
  apply respects_find_category_by_name; try exact I; auto.
  intros c x xt. reflexivity.
Qed.

Lemma resolve_judge_id_search_calls request env w :
  search_calls (sent (snd (CaseService.resolve_judge_id request env w)))
  = search_calls (sent w).
Proof.
  apply (reference_run_search_calls (fun _ => True)).
  unfold CaseService.resolve_judge_id.
  destruct (truthy_str (JudgeSearchRequest.judge_name request)
            && negb (truthy_int (JudgeSearchRequest.judge_id request)));
    run_apart.
  - apply respects_find_commission_by_name; auto using region_lookup_is_reference.
    intros c s st cm. reflexivity.
  - apply respects_find_judge_by_name; try exact I; auto.
    intros c j. reflexivity.
Qed.

(** The search calls of the shared operation: the one it sends once the
    commission is resolved. *)
Lemma search_cases_by_type_search_calls env w sn cn sv st fd td pg sz jid cid w1 :
  MapperService.find_commission_by_name sn cn env w = (Ok cid, w1) ->
  search_calls (sent (snd (CaseService._search_cases_by_type
                             sn cn sv st fd td pg sz jid env w)))
  = (search_calls (sent w)
     ++ [Payload.mk cid pg sz (fst (date_range fd td (now w1)))
                    (snd (date_range fd td (now w1)))
                    (if (st =? 6) || (st =? 7) then 2 else 1) st sv jid])%list.
Proof.
  intros Hres. rewrite (search_cases_by_type_world _ _ _ _ _ _ _ _ _ _ _ _ _ Hres).
  unfold after_request. cbn [elapse sent]. rewrite search_calls_app. cbn [search_calls].
  f_equal. pose proof (find_commission_search_calls sn cn env w) as H.
  now rewrite Hres in H.
Qed.

(** C6: a search that comes without a date range and whose names resolve
    issues exactly one upstream search call; the call carries the first and
    the last day of the current year, the code of the search kind (1 to 7),
    and [dateRequestType] 1 for the kinds 1 to 5, 2 for category and
    judge. *)
Theorem default_date_range_search :
  forall env w,
    (forall op k request cid w1,
        In (op, k) [(CaseService.search_by_case_number, 1);
                    (CaseService.search_by_complainant, 2);
                    (CaseService.search_by_respondent, 3);
                    (CaseService.search_by_complainant_advocate, 4);
                    (CaseService.search_by_respondent_advocate, 5)] ->
        CaseSearchRequest.from_date request = None ->
        CaseSearchRequest.to_date request = None ->
        MapperService.find_commission_by_name
          (CaseSearchRequest.state request) (CaseSearchRequest.commission request) env w
        = (Ok cid, w1) ->
        search_calls (sent (snd (op request env w)))
        = (search_calls (sent w)
           ++ [Payload.mk cid (CaseSearchRequest.page request)
                          (CaseSearchRequest.size request)
                          (str_of_int (year_of (now w1)) ++ "-01-01")
                          (str_of_int (year_of (now w1)) ++ "-12-31")
                          1 k (CaseSearchRequest.search_value request) ""])%list)
    /\ (forall request search_value w0 cid w1,
           IndustryTypeSearchRequest.from_date request = None ->
           IndustryTypeSearchRequest.to_date request = None ->
           CaseService.resolve_search_value request env w = (Ok search_value, w0) ->
           MapperService.find_commission_by_name
             (IndustryTypeSearchRequest.state request)
             (IndustryTypeSearchRequest.commission request) env w0
           = (Ok cid, w1) ->
           search_calls (sent (snd (CaseService.search_by_industry_type request env w)))
           = (search_calls (sent w)
              ++ [Payload.mk cid (IndustryTypeSearchRequest.page request)
                             (IndustryTypeSearchRequest.size request)
                             (str_of_int (year_of (now w1)) ++ "-01-01")
                             (str_of_int (year_of (now w1)) ++ "-12-31")
                             2 6 (str_of_pyval search_value) ""])%list)
    /\ (forall request judge_id w0 cid w1,
           JudgeSearchRequest.from_date request = None ->
           JudgeSearchRequest.to_date request = None ->
           CaseService.resolve_judge_id request env w = (Ok judge_id, w0) ->
           MapperService.find_commission_by_name
             (JudgeSearchRequest.state request)
             (JudgeSearchRequest.commission request) env w0
           = (Ok cid, w1) ->
           search_calls (sent (snd (CaseService.search_by_judge request env w)))
           = (search_calls (sent w)
              ++ [Payload.mk cid (JudgeSearchRequest.page request)
                             (JudgeSearchRequest.size request)
                             (str_of_int (year_of (now w1)) ++ "-01-01")
                             (str_of_int (year_of (now w1)) ++ "-12-31")
                             2 7 "" (str_of_pyval judge_id)])%list).
Proof.
  intros env w. split; [|split].
  - intros op k request cid w1 Hop Hfrom Hto Hres.
    assert (Hk : op = CaseService.search_by k /\ ((k =? 6) || (k =? 7) = false)).
    { cbn in Hop.
      repeat (destruct Hop as [Hop|Hop]; [injection Hop as <- <-; now split|]).
      contradiction. }
    destruct Hk as [-> Hk]. unfold CaseService.search_by.
    rewrite (search_cases_by_type_search_calls _ _ _ _ _ _ _ _ _ _ _ _ _ Hres).
    rewrite Hfrom, Hto, Hk. reflexivity.
  - intros request search_value w0 cid w1 Hfrom Hto Hvalue Hres.
    unfold CaseService.search_by_industry_type. rewrite bind_run, Hvalue.
    rewrite (search_cases_by_type_search_calls _ _ _ _ _ _ _ _ _ _ _ _ _ Hres).
    rewrite Hfrom, Hto. cbn.
    pose proof (resolve_search_value_search_calls request env w) as H.
    rewrite Hvalue in H. cbn in H. now rewrite H.
  - intros request judge_id w0 cid w1 Hfrom Hto Hjudge Hres.
    unfold CaseService.search_by_judge. rewrite bind_run, Hjudge.
    rewrite (search_cases_by_type_search_calls _ _ _ _ _ _ _ _ _ _ _ _ _ Hres).
    rewrite Hfrom, Hto. cbn.
    pose proof (resolve_judge_id_search_calls request env w) as H.
    rewrite Hjudge in H. cbn in H. now rewrite H.
Qed.

Lemma default_date_range_search_witness :
  search_calls
    (sent (snd (CaseService.search_by_case_number Sample.request Sample.env Sample.world)))
  = [Payload.mk 11240438 (Some 0) (Some 30) "2026-01-01" "2026-12-31" 1 1 "DC/AB1/484/CC/21/344" ""].
Proof.
  refine (eq_trans
            (proj1 (default_date_range_search Sample.env Sample.world)
                   CaseService.search_by_case_number 1 Sample.request 11240438
                   (snd (MapperService.find_commission_by_name
                           "GUJARAT" "Ahmedabad City" Sample.env Sample.world))
                   (or_introl eq_refl) eq_refl eq_refl _) _).
  - vm_compute. reflexivity.
  - vm_compute. reflexivity.
Defined.

(* ================================================================== *)
(** * Judge and category searches *)
(* ================================================================== *)

Lemma find_map {A B : Type} (p : B -> bool) (f : A -> B) (l : list A) :
  find p (map f l) = option_map f (find (fun a => p (f a)) l).
Proof.
  induction l as [|a l IH]; [reflexivity|].
  cbn. destruct (p (f a)); [reflexivity | exact IH].
Qed.

Lemma lookup_get_none {V : Type} (key : string) (time : Z) (c : TTLCache.t V) :
  TTLCache.lookup key (TTLCache.items c) = None ->
  TTLCache.get key time c = (None, c).
Proof. unfold TTLCache.get. now intros ->. Qed.

(** With no judges cached for a commission and the portal answering, a
    judge is looked up in the portal's list for that commission. *)
Lemma find_judge_by_name_cold env w commission_id judge_name :
  TTLCache.lookup (CacheService.judges_key commission_id)
                  (TTLCache.items (judges_cache (cache w))) = None ->
  attempt_outcome env (List.length (sent w)) = Answered ->
  fst (MapperService.find_judge_by_name commission_id judge_name env w)
  = match find (fun j => MapperService._fuzzy_match judge_name (RawJudge.judgeName j))
               (judges_data env commission_id) with
    | Some j => Ok (Judge.mk (RawJudge.judgeId j) (RawJudge.judgeName j) commission_id)
    | None => Raise (JudgeNotFoundException judge_name)
    end.
Proof.
  intros Hcold Hans.
  unfold MapperService.find_judge_by_name, MapperService.get_judges_by_commission,
    CacheService.get_judges, CacheService.set_judges, JagritiClient.get_judges.
  cbv beta iota delta [bind get_cache time_monotonic put_cache ret fst snd cache].
  rewrite (lookup_get_none _ _ _ Hcold).
  cbv beta iota delta [bind get_cache time_monotonic put_cache ret fst snd].
  rewrite make_request_once, make_request_body_run.
  cbn [sent]. rewrite Hans.
  cbv beta iota.
  rewrite find_map. cbn [Judge.judge_name option_map].
  destruct (find _ (judges_data env commission_id)); reflexivity.
Qed.

(** C7: a judge search that gives a judge name and no judge id resolves the
    commission first, then the judge within that commission (the judge is
    the first match of that commission's list, so one name under two
    commissions can yield two ids), then issues the search with an empty
    search value and the resolved id in [judgeId]. *)
Theorem judge_search_by_name :
  (forall env w request name cid w1 judge w2,
      JudgeSearchRequest.judge_name request = Some name ->
      name <> "" ->
      truthy_int (JudgeSearchRequest.judge_id request) = false ->
      MapperService.find_commission_by_name
        (JudgeSearchRequest.state request) (JudgeSearchRequest.commission request) env w
      = (Ok cid, w1) ->
      MapperService.find_judge_by_name cid name env w1 = (Ok judge, w2) ->
      CaseService.resolve_judge_id request env w = (Ok (PInt (Judge.judge_id judge)), w2)
      /\ (exists judges,
             MapperService.get_judges_by_commission cid env w1 = (Ok judges, w2)
             /\ find (fun j => MapperService._fuzzy_match name (Judge.judge_name j)) judges
                = Some judge)
      /\ CaseService.search_by_judge request env w
         = CaseService._search_cases_by_type
             (JudgeSearchRequest.state request) (JudgeSearchRequest.commission request)
             "" 7
             (JudgeSearchRequest.from_date request) (JudgeSearchRequest.to_date request)
             (JudgeSearchRequest.page request) (JudgeSearchRequest.size request)
             (str_of_int (Judge.judge_id judge)) env w2
      /\ (forall cid' w3,
             MapperService.find_commission_by_name
               (JudgeSearchRequest.state request) (JudgeSearchRequest.commission request)
               env w2
             = (Ok cid', w3) ->
             exists p,
               search_calls (sent (snd (CaseService.search_by_judge request env w)))
               = (search_calls (sent w) ++ [p])%list
               /\ Payload.commissionId p = cid'
               /\ Payload.serchType p = 7
               /\ Payload.serchTypeValue p = ""
               /\ Payload.judgeId p = str_of_int (Judge.judge_id judge)))
  /\ (forall env w cid name,
         TTLCache.lookup (CacheService.judges_key cid)
                         (TTLCache.items (judges_cache (cache w))) = None ->
         attempt_outcome env (List.length (sent w)) = Answered ->
         fst (MapperService.find_judge_by_name cid name env w)
         = match find (fun j => MapperService._fuzzy_match name (RawJudge.judgeName j))
                      (judges_data env cid) with
           | Some j => Ok (Judge.mk (RawJudge.judgeId j) (RawJudge.judgeName j) cid)
           | None => Raise (JudgeNotFoundException name)
           end).
Proof.
  split; [|exact find_judge_by_name_cold].
  intros env w request name cid w1 judge w2 Hname Hnonempty Hid Hcid Hjudge.
  assert (Hresolve : CaseService.resolve_judge_id request env w
                     = (Ok (PInt (Judge.judge_id judge)), w2)).
  { unfold CaseService.resolve_judge_id. rewrite Hname, Hid.
    destruct name as [|c name]; [contradiction|]. cbn [truthy_str negb andb].
    rewrite bind_run, Hcid, bind_run. cbn [str_of_optional]. now rewrite Hjudge. }
  assert (Hrun : CaseService.search_by_judge request env w
                 = CaseService._search_cases_by_type
                     (JudgeSearchRequest.state request)
                     (JudgeSearchRequest.commission request) "" 7
                     (JudgeSearchRequest.from_date request)
                     (JudgeSearchRequest.to_date request)
                     (JudgeSearchRequest.page request) (JudgeSearchRequest.size request)
                     (str_of_int (Judge.judge_id judge)) env w2).
  { unfold CaseService.search_by_judge. now rewrite bind_run, Hresolve. }
  split; [exact Hresolve|]. split; [|split; [exact Hrun|]].
  - unfold MapperService.find_judge_by_name in Hjudge. rewrite bind_run in Hjudge.
    destruct (MapperService.get_judges_by_commission cid env w1) as [[judges|e] w'];
      [|discriminate].
    exists judges.
    destruct (find (fun j => MapperService._fuzzy_match name (Judge.judge_name j)) judges);
      cbn in Hjudge; inversion Hjudge; subst. now split.
  - intros cid' w3 Hagain. eexists. rewrite Hrun.
    rewrite (search_cases_by_type_search_calls _ _ _ _ _ _ _ _ _ _ _ _ _ Hagain).
    pose proof (resolve_judge_id_search_calls request env w) as H.
    rewrite Hresolve in H. cbn [snd] in H. rewrite H.
    split; [reflexivity|]. cbn. auto.
Qed.

Lemma judge_search_by_name_witness :
  search_calls
    (sent (snd (CaseService.search_by_judge Sample.judge_request Sample.env Sample.world)))
  = [Payload.mk 11240438 (Some 0) (Some 30) "2026-01-01" "2026-12-31" 2 7 "" "11446"]
  /\ fst (MapperService.find_judge_by_name 11240500 "M.H.PATEL" Sample.env Sample.world)
     = Ok (Judge.mk 22001 "M.H.PATEL" 11240500).
Proof.
  split.
  - pose proof (proj1 judge_search_by_name Sample.env Sample.world Sample.judge_request
                      "M.H.PATEL" 11240438
                      (snd (MapperService.find_commission_by_name
                              "GUJARAT" "Ahmedabad City" Sample.env Sample.world))
                      (Judge.mk 11446 "HON'BLE MR. President M.H.PATEL" 11240438)
                      (snd (CaseService.resolve_judge_id
                              Sample.judge_request Sample.env Sample.world))
                      eq_refl ltac:(discriminate) eq_refl
                      ltac:(vm_compute; reflexivity) ltac:(vm_compute; reflexivity))
      as [_ [_ [Hrun _]]].
    rewrite Hrun. vm_compute. reflexivity.
  - rewrite (proj2 judge_search_by_name Sample.env Sample.world 11240500 "M.H.PATEL"
                   eq_refl eq_refl).
    vm_compute. reflexivity.
Defined.

(** What the requests of the shared operation exclude. *)
Lemma search_request_of_no_lookup st sv jid (l : list Request) :
  Forall (search_request_of st sv jid) l ->
  (forall c, ~ In (GetJudgeListForHearing c) l)
  /\ ~ In CaseCategory l
  /\ (forall p, In (GetCaseDetailsBySearchType p) l ->
                Payload.serchType p = st
                /\ Payload.serchTypeValue p = sv
                /\ Payload.judgeId p = jid).
Proof.
  intros Hl. rewrite Forall_forall in Hl. repeat split.
  - intros c Hin. exact (Hl _ Hin).
  - intros Hin. exact (Hl _ Hin).
  - apply (Hl _ H).
  - apply (Hl _ H).
  - apply (Hl _ H).
Qed.

(** C10: with a non-zero judge id (category id) in the request, name
    resolution is skipped whether or not a name is given: the search runs
    as the shared operation on the supplied id, sends no judge-list
    (category-list) request, leaves the judges (categories) cache as it
    was, carries the id in every search call, and cannot raise
    judge-not-found (category-not-found). *)
Theorem supplied_id_skips_name_resolution :
  (forall env w request j,
      JudgeSearchRequest.judge_id request = Some j -> j <> 0 ->
      let run := CaseService.search_by_judge request env w in
      run = CaseService._search_cases_by_type
              (JudgeSearchRequest.state request) (JudgeSearchRequest.commission request)
              "" 7
              (JudgeSearchRequest.from_date request) (JudgeSearchRequest.to_date request)
              (JudgeSearchRequest.page request) (JudgeSearchRequest.size request)
              (str_of_int j) env w
      /\ (exists l,
             sent (snd run) = (sent w ++ l)%list
             /\ (forall c, ~ In (GetJudgeListForHearing c) l)
             /\ (forall p, In (GetCaseDetailsBySearchType p) l ->
                           Payload.judgeId p = str_of_int j))
      /\ judges_cache (cache (snd run)) = judges_cache (cache w)
      /\ (forall n, fst run <> Raise (JudgeNotFoundException n)))
  /\ (forall env w request c,
         IndustryTypeSearchRequest.category_id request = Some c -> c <> 0 ->
         let run := CaseService.search_by_industry_type request env w in
         run = CaseService._search_cases_by_type
                 (IndustryTypeSearchRequest.state request)
                 (IndustryTypeSearchRequest.commission request)
                 (str_of_int c) 6
                 (IndustryTypeSearchRequest.from_date request)
                 (IndustryTypeSearchRequest.to_date request)
                 (IndustryTypeSearchRequest.page request)
                 (IndustryTypeSearchRequest.size request)
                 "" env w
         /\ (exists l,
                sent (snd run) = (sent w ++ l)%list
                /\ ~ In CaseCategory l
                /\ (forall p, In (GetCaseDetailsBySearchType p) l ->
                              Payload.serchTypeValue p = str_of_int c))
         /\ categories_cache (cache (snd run)) = categories_cache (cache w)
         /\ categories_cache_time (cache (snd run)) = categories_cache_time (cache w)
         /\ (forall n, fst run <> Raise (CategoryNotFoundException n))).
Proof.
  split.
  - intros env w request j Hid Hj run.
    assert (Hrun : run = CaseService._search_cases_by_type
                           (JudgeSearchRequest.state request)
                           (JudgeSearchRequest.commission request) "" 7
                           (JudgeSearchRequest.from_date request)
                           (JudgeSearchRequest.to_date request)
                           (JudgeSearchRequest.page request)
                           (JudgeSearchRequest.size request) (str_of_int j) env w).
    { unfold run, CaseService.search_by_judge, CaseService.resolve_judge_id.
      rewrite Hid. cbn [truthy_int]. apply Z.eqb_neq in Hj. rewrite Hj.
      cbn [negb]. rewrite andb_false_r. reflexivity. }
    split; [exact Hrun|]. rewrite Hrun.
    destruct (respects_search_cases_by_type judges_cache
                (JudgeSearchRequest.state request) (JudgeSearchRequest.commission request)
                "" 7 (JudgeSearchRequest.from_date request)
                (JudgeSearchRequest.to_date request) (JudgeSearchRequest.page request)
                (JudgeSearchRequest.size request) (str_of_int j)
                ltac:(intros c s st cm; reflexivity) env w)
      as [[l [Hsent Hl]] [Hframe Hexn]].
    destruct (search_request_of_no_lookup _ _ _ l Hl) as [Hnoj [_ Hcalls]].
    split; [|split; [exact Hframe|]].
    + exists l. split; [exact Hsent|]. split; [exact Hnoj|].
      intros p Hp. apply (Hcalls p Hp).
    + intros n Hn. exact (Hexn _ Hn).
  - intros env w request c Hid Hc run.
    assert (Hrun : run = CaseService._search_cases_by_type
                           (IndustryTypeSearchRequest.state request)
                           (IndustryTypeSearchRequest.commission request)
                           (str_of_int c) 6
                           (IndustryTypeSearchRequest.from_date request)
                           (IndustryTypeSearchRequest.to_date request)
                           (IndustryTypeSearchRequest.page request)
                           (IndustryTypeSearchRequest.size request) "" env w).
    { unfold run, CaseService.search_by_industry_type, CaseService.resolve_search_value.
      rewrite Hid. cbn [truthy_int]. apply Z.eqb_neq in Hc. rewrite Hc.
      cbn [negb]. rewrite andb_false_r. reflexivity. }
    split; [exact Hrun|]. rewrite Hrun.
    destruct (respects_search_cases_by_type
                (fun cs => (categories_cache cs, categories_cache_time cs))
                (IndustryTypeSearchRequest.state request)
                (IndustryTypeSearchRequest.commission request)
                (str_of_int c) 6 (IndustryTypeSearchRequest.from_date request)
                (IndustryTypeSearchRequest.to_date request)
                (IndustryTypeSearchRequest.page request)
                (IndustryTypeSearchRequest.size request) ""
                ltac:(intros cs s st cm; reflexivity) env w)
      as [[l [Hsent Hl]] [Hframe Hexn]].
    destruct (search_request_of_no_lookup _ _ _ l Hl) as [_ [Hnoc Hcalls]].
    injection Hframe as Hcache Htime.
    split; [|split; [exact Hcache | split; [exact Htime|]]].
    + exists l. split; [exact Hsent|]. split; [exact Hnoc|].
      intros p Hp. apply (Hcalls p Hp).
    + intros n Hn. exact (Hexn _ Hn).
Qed.

Lemma supplied_id_skips_name_resolution_witness :
  search_calls
    (sent (snd (CaseService.search_by_judge
                  (JudgeSearchRequest.mk "GUJARAT" "Surat" (Some "no such judge") (Some 5)
                                         None None (Some 0) (Some 30))
                  Sample.env Sample.world)))
  = [Payload.mk 11240500 (Some 0) (Some 30) "2026-01-01" "2026-12-31" 2 7 "" "5"].
Proof.
  rewrite (proj1 (proj1 supplied_id_skips_name_resolution Sample.env Sample.world
                        (JudgeSearchRequest.mk "GUJARAT" "Surat" (Some "no such judge")
                                               (Some 5) None None (Some 0) (Some 30))
                        5 eq_refl ltac:(discriminate))).
  vm_compute. reflexivity.
Defined.

(* ================================================================== *)
(** * Cached empty lists *)
(* ================================================================== *)

Lemma fetch_states_sent env w :
  sent (snd (MapperService.fetch_states env w))
  = (sent w ++ [GetStateCommissionAndCircuitBench])%list.
Proof.
  unfold MapperService.fetch_states, JagritiClient.get_states.
  rewrite bind_run, make_request_once, make_request_body_run.
  destruct (attempt_outcome env (List.length (sent w))); reflexivity.
Qed.

Lemma fetch_categories_sent env w :
  sent (snd (MapperService.fetch_categories env w)) = (sent w ++ [CaseCategory])%list.
Proof.
  unfold MapperService.fetch_categories, JagritiClient.get_categories.
  rewrite bind_run, make_request_once, make_request_body_run.
  destruct (attempt_outcome env (List.length (sent w))); reflexivity.
Qed.

(** An empty cached list of states is no hit, valid or not. *)
Lemma get_all_states_empty env w :
  states_cache (cache w) = Some [] ->
  MapperService.get_all_states env w = MapperService.fetch_states env w.
Proof.
  intros Hc. unfold MapperService.get_all_states. rewrite bind_run.
  cbn [CacheService.is_states_valid bind get_cache datetime_now ret].
  destruct (CacheService._is_cache_valid _ _ _); [|reflexivity].
  rewrite bind_run. cbn [CacheService.get_states bind get_cache ret]. now rewrite Hc.
Qed.

Lemma get_all_categories_empty env w :
  categories_cache (cache w) = Some [] ->
  MapperService.get_all_categories env w = MapperService.fetch_categories env w.
Proof.
  intros Hc. unfold MapperService.get_all_categories. rewrite bind_run.
  cbn [CacheService.is_categories_valid bind get_cache datetime_now ret].
  destruct (CacheService._is_cache_valid _ _ _); [|reflexivity].
  rewrite bind_run. cbn [CacheService.get_categories bind get_cache ret]. now rewrite Hc.
Qed.

(** A live item of a [TTLCache] is what [get] returns. *)
Lemma ttl_get_hit {V : Type} (key : string) (time expires : Z) (v : V) (c : TTLCache.t V) :
  TTLCache.lookup key (TTLCache.items c) = Some (v, expires) ->
  time < expires ->
  fst (TTLCache.get key time c) = Some v.
Proof.
  intros Hl Ht. unfold TTLCache.get. rewrite Hl.
  apply Z.ltb_lt in Ht. now rewrite Ht.
Qed.

Lemma get_commissions_by_state_hit env w state_id l expires :
  TTLCache.lookup (CacheService.commissions_key state_id)
                  (TTLCache.items (commissions_cache (cache w))) = Some (l, expires) ->
  monotonic w < expires ->
  fst (MapperService.get_commissions_by_state state_id env w) = Ok l
  /\ sent (snd (MapperService.get_commissions_by_state state_id env w)) = sent w.
Proof.
  intros Hl Ht. pose proof (ttl_get_hit _ _ _ _ _ Hl Ht) as Hget.
  unfold MapperService.get_commissions_by_state, CacheService.get_commissions.
  cbv beta iota delta [bind get_cache time_monotonic put_cache ret].
  destruct (TTLCache.get _ (monotonic w) (commissions_cache (cache w))) as [data tc].
  cbn [fst] in Hget. subst data. split; reflexivity.
Qed.

Lemma get_judges_by_commission_hit env w commission_id l expires :
  TTLCache.lookup (CacheService.judges_key commission_id)
                  (TTLCache.items (judges_cache (cache w))) = Some (l, expires) ->
  monotonic w < expires ->
  fst (MapperService.get_judges_by_commission commission_id env w) = Ok l
  /\ sent (snd (MapperService.get_judges_by_commission commission_id env w)) = sent w.
Proof.
  intros Hl Ht. pose proof (ttl_get_hit _ _ _ _ _ Hl Ht) as Hget.
  unfold MapperService.get_judges_by_commission, CacheService.get_judges.
  cbv beta iota delta [bind get_cache time_monotonic put_cache ret].
  destruct (TTLCache.get _ (monotonic w) (judges_cache (cache w))) as [data tc].
  cbn [fst] in Hget. subst data. split; reflexivity.
Qed.

(** C9: a cached empty list of states or of categories is treated as a
    miss, so every call sends a request to the portal, inside the TTL
    window too; a cached empty list of commissions or of judges is served
    from the cache with no request. *)
Theorem cached_empty_list_asymmetry :
  (forall env w,
      states_cache (cache w) = Some [] ->
      sent (snd (MapperService.get_all_states env w))
      = (sent w ++ [GetStateCommissionAndCircuitBench])%list)
  /\ (forall env w,
         categories_cache (cache w) = Some [] ->
         sent (snd (MapperService.get_all_categories env w))
         = (sent w ++ [CaseCategory])%list)
  /\ (forall env w state_id expires,
         TTLCache.lookup (CacheService.commissions_key state_id)
                         (TTLCache.items (commissions_cache (cache w)))
         = Some ([], expires) ->
         monotonic w < expires ->
         fst (MapperService.get_commissions_by_state state_id env w) = Ok []
         /\ sent (snd (MapperService.get_commissions_by_state state_id env w)) = sent w)
  /\ (forall env w commission_id expires,
         TTLCache.lookup (CacheService.judges_key commission_id)
                         (TTLCache.items (judges_cache (cache w)))
         = Some ([], expires) ->
         monotonic w < expires ->
         fst (MapperService.get_judges_by_commission commission_id env w) = Ok []
         /\ sent (snd (MapperService.get_judges_by_commission commission_id env w))
            = sent w).
Proof.
  split; [|split; [|split]].
  - intros env w Hc. rewrite (get_all_states_empty env w Hc). apply fetch_states_sent.
  - intros env w Hc. rewrite (get_all_categories_empty env w Hc).
    apply fetch_categories_sent.
  - intros env w state_id expires. apply get_commissions_by_state_hit.
  - intros env w commission_id expires. apply get_judges_by_commission_hit.
Qed.

Lemma cached_empty_list_asymmetry_witness :
  (let w1 := snd (MapperService.get_all_states Sample.empty_portal Sample.world) in
   CacheService._is_cache_valid (states_cache_time (cache w1))
                                Settings.CACHE_TTL_STATES (now w1) = true
   /\ sent (snd (MapperService.get_all_states Sample.empty_portal w1))
      = [GetStateCommissionAndCircuitBench; GetStateCommissionAndCircuitBench])
  /\ (let w1 := snd (MapperService.get_commissions_by_state 11300000 Sample.env
                                                            Sample.world) in
      sent (snd (MapperService.get_commissions_by_state 11300000 Sample.env w1))
      = [GetDistrictCommissionByCommissionId 11300000]).
Proof.
  split; cbv zeta.
  - split; [vm_compute; reflexivity|].
    rewrite (proj1 cached_empty_list_asymmetry Sample.empty_portal
                   (snd (MapperService.get_all_states Sample.empty_portal Sample.world))
                   eq_refl).
    vm_compute. reflexivity.
  - rewrite (proj2 (proj1 (proj2 (proj2 cached_empty_list_asymmetry))
                          Sample.env
                          (snd (MapperService.get_commissions_by_state
                                  11300000 Sample.env Sample.world))
                          11300000 21601000000 eq_refl eq_refl)).
    vm_compute. reflexivity.
Defined.

(* ================================================================== *)
(** * The cache of search results *)
(* ================================================================== *)

(** The order of [str] is transitive. *)
Lemma string_compare_lt_trans (s t u : string) :
  String.compare s t = Lt -> String.compare t u = Lt -> String.compare s u = Lt.
Proof.
  revert t u. induction s as [|a s IH]; intros [|b t] [|c u]; cbn; try congruence.
  unfold Ascii.compare.
  destruct (N.compare_spec (N_of_ascii a) (N_of_ascii b)) as [Hab|Hab|Hab];
    destruct (N.compare_spec (N_of_ascii b) (N_of_ascii c)) as [Hbc|Hbc|Hbc];
    try discriminate;
    destruct (N.compare_spec (N_of_ascii a) (N_of_ascii c)) as [Hac|Hac|Hac];
    try reflexivity; try lia.
  apply IH.
Qed.

Lemma string_leb_trans (s t u : string) :
  String.leb s t = true -> String.leb t u = true -> String.leb s u = true.
Proof.
  unfold String.leb. intros Hst Htu.
  destruct (String.compare s t) eqn:Est; try discriminate;
    destruct (String.compare t u) eqn:Etu; try discriminate.
  - apply String.compare_eq_iff in Est. subst t. now rewrite Etu.
  - apply String.compare_eq_iff in Est. subst t. now rewrite Etu.
  - apply String.compare_eq_iff in Etu. subst u. now rewrite Est.
  - now rewrite (string_compare_lt_trans s t u Est Etu).
Qed.

(** [sorted(...)] returns its argument's items, in ascending key order. *)
Lemma insert_item_perm it l : Permutation (it :: l) (CacheService.insert_item it l).
Proof.
  induction l as [|x l IH]; cbn; [apply Permutation_refl|].
  destruct (String.leb (fst it) (fst x)); [apply Permutation_refl|].
  eapply Permutation_trans; [apply perm_swap|]. now apply perm_skip.
Qed.

Lemma sort_items_perm l : Permutation l (CacheService.sort_items l).
Proof.
  induction l as [|it l IH]; cbn; [apply Permutation_refl|].
  eapply Permutation_trans; [apply perm_skip, IH | apply insert_item_perm].
Qed.

Lemma insert_item_sorted it l :
  StronglySorted (fun a b => String.leb (fst a) (fst b) = true) l ->
  StronglySorted (fun a b => String.leb (fst a) (fst b) = true)
                 (CacheService.insert_item it l).
Proof.
  induction 1 as [|x l Hl IH Hx]; cbn.
  - constructor; constructor.
  - destruct (String.leb (fst it) (fst x)) eqn:E.
    + constructor; [now constructor|].
      constructor; [exact E|].
      eapply Forall_impl; [|exact Hx]. intros y Hy. cbv beta in *.
      eapply string_leb_trans; eassumption.
    + constructor; [exact IH|].
      eapply Permutation_Forall; [apply insert_item_perm|].
      constructor; [|exact Hx].
      destruct (String.leb_total (fst it) (fst x)) as [H|H]; congruence.
Qed.

Lemma sort_items_sorted l :
  StronglySorted (fun a b => String.leb (fst a) (fst b) = true)
                 (CacheService.sort_items l).
Proof.
  induction l as [|it l IH]; cbn; [constructor | now apply insert_item_sorted].
Qed.

(** Two sorted lists of the same items under distinct keys are one list. *)
Lemma sorted_items_unique (l1 l2 : list (string * pyval)) :
  StronglySorted (fun a b => String.leb (fst a) (fst b) = true) l1 ->
  StronglySorted (fun a b => String.leb (fst a) (fst b) = true) l2 ->
  Permutation l1 l2 -> NoDup (map fst l1) -> l1 = l2.
Proof.
  intros H1. revert l2. induction H1 as [|a l1 Hl1 IH Ha]; intros l2 H2 Hperm Hnd.
  - now apply Permutation_nil in Hperm.
  - destruct H2 as [|b l2 Hl2 Hb].
    + apply Permutation_sym, Permutation_nil in Hperm. discriminate.
    + assert (Hab : a = b).
      { assert (Hina : In a (b :: l2))
          by (eapply Permutation_in; [exact Hperm | now left]).
        assert (Hinb : In b (a :: l1))
          by (eapply Permutation_in; [apply Permutation_sym, Hperm | now left]).
        destruct Hina as [Hina|Hina]; [now symmetry|].
        destruct Hinb as [Hinb|Hinb]; [exact Hinb|].
        rewrite Forall_forall in Ha, Hb.
        pose proof (String.leb_antisym _ _ (Ha _ Hinb) (Hb _ Hina)) as Hkey.
        cbn in Hnd. apply NoDup_cons_iff in Hnd. destruct Hnd as [Hnotin _].
        exfalso. apply Hnotin. rewrite Hkey. now apply in_map. }
      subst b. f_equal. apply IH; [exact Hl2 | |].
      * eapply Permutation_cons_inv. exact Hperm.
      * cbn in Hnd. now apply NoDup_cons_iff in Hnd.
Qed.

(** The key does not depend on the order the keyword arguments come in. *)
Lemma generate_cache_key_order (md5 : string -> string) (k1 k2 : list (string * pyval)) :
  Permutation k1 k2 -> NoDup (map fst k1) ->
  CacheService._generate_cache_key md5 k1 = CacheService._generate_cache_key md5 k2.
Proof.
  intros Hperm Hnd. unfold CacheService._generate_cache_key, CacheService.json_dumps_sorted.
  rewrite (sorted_items_unique (CacheService.sort_items k1) (CacheService.sort_items k2));
    [reflexivity | apply sort_items_sorted | apply sort_items_sorted | |].
  - eapply Permutation_trans; [apply Permutation_sym, sort_items_perm|].
    eapply Permutation_trans; [exact Hperm | apply sort_items_perm].
  - eapply Permutation_NoDup; [|exact Hnd]. apply Permutation_map, sort_items_perm.
Qed.

(** What [cache[key] = value] stores is what a later [get] finds. *)
Lemma lookup_app_new {V : Type} (key : string) (x : V * Z) (l : list (string * (V * Z))) :
  TTLCache.lookup key l = None -> TTLCache.lookup key (l ++ [(key, x)]) = Some x.
Proof.
  unfold TTLCache.lookup. induction l as [|[k y] l IH]; cbn.
  - now rewrite String.eqb_refl.
  - destruct (String.eqb k key); [discriminate | exact IH].
Qed.

Lemma lookup_without {V : Type} (key : string) (l : list (string * (V * Z))) :
  TTLCache.lookup key (TTLCache.without key l) = None.
Proof.
  unfold TTLCache.lookup, TTLCache.without. induction l as [|[k y] l IH]; cbn.
  - reflexivity.
  - destruct (String.eqb k key) eqn:E; cbn; [exact IH|]. now rewrite E.
Qed.

Lemma lookup_make_room {V : Type} (key : string) (bound : nat)
      (l : list (string * (V * Z))) :
  TTLCache.lookup key l = None -> TTLCache.lookup key (TTLCache.make_room bound l) = None.
Proof.
  induction l as [|[k y] l IH]; cbn [TTLCache.make_room]; [reflexivity|].
  intros H. destruct (List.length ((k, y) :: l) <? bound)%nat; [exact H|].
  apply IH. unfold TTLCache.lookup in *. cbn in H.
  destruct (String.eqb k key); [discriminate | exact H].
Qed.

Lemma setitem_lookup {V : Type} (key : string) (v : V) (time : Z) (c : TTLCache.t V) :
  TTLCache.lookup key (TTLCache.items (TTLCache.setitem key v time c))
  = Some (v, time + TTLCache.ttl c).
Proof.
  unfold TTLCache.setitem. cbn [TTLCache.items].
  apply lookup_app_new.
  destruct (TTLCache.lookup key (TTLCache.items (TTLCache.expire time c))) eqn:E.
  - apply lookup_without.
  - now apply lookup_make_room.
Qed.

Lemma set_cases_get_cases (md5 : string -> string) data k1 k2 env w w' :
  Permutation k1 k2 -> NoDup (map fst k1) ->
  cache w' = cache (snd (CacheService.set_cases md5 data k1 env w)) ->
  monotonic w' < monotonic w + TTLCache.ttl (cases_cache (cache w)) ->
  fst (CacheService.get_cases md5 k2 env w') = Ok (Some data).
Proof.
  intros Hperm Hnd Hcache Htime.
  unfold CacheService.get_cases.
  rewrite <- (generate_cache_key_order md5 k1 k2 Hperm Hnd).
  cbv beta iota delta [bind get_cache time_monotonic put_cache ret].
  pose proof (ttl_get_hit (CacheService._generate_cache_key md5 k1) (monotonic w')
                          (monotonic w + TTLCache.ttl (cases_cache (cache w))) data
                          (cases_cache (cache w'))) as Hget.
  rewrite Hcache in Hget at 1.
  specialize (Hget (setitem_lookup _ _ _ _) Htime).
  destruct (TTLCache.get _ (monotonic w') (cases_cache (cache w'))) as [d tc].
  cbn [fst] in Hget. now subst d.
Qed.

(** No step of a search operation touches the cache of search results:
    neither the resolution of a category or of a judge, nor the shared
    operation. *)
Lemma resolve_search_value_cases_cache request env w :
  cases_cache (cache (snd (CaseService.resolve_search_value request env w)))
  = cases_cache (cache w).
Proof.
  assert (H : respects (fun _ => True) (fun _ => True) cases_cache
                       (CaseService.resolve_search_value request)).
  { unfold CaseService.resolve_search_value.
    destruct (truthy_str (IndustryTypeSearchRequest.category_name request)
              && negb (truthy_int (IndustryTypeSearchRequest.category_id request)));
      run_apart.
    apply respects_find_category_by_name; try exact I; auto.
    intros c x xt. reflexivity. }
  exact (proj1 (proj2 (H env w))).
Qed.

Lemma resolve_judge_id_cases_cache request env w :
  cases_cache (cache (snd (CaseService.resolve_judge_id request env w)))
  = cases_cache (cache w).
Proof.
  assert (H : respects (fun _ => True) (fun _ => True) cases_cache
                       (CaseService.resolve_judge_id request)).
  { unfold CaseService.resolve_judge_id.
    destruct (truthy_str (JudgeSearchRequest.judge_name request)
              && negb (truthy_int (JudgeSearchRequest.judge_id request)));
      run_apart.
    - apply respects_find_commission_by_name; auto.
      intros c s st cm. reflexivity.
    - apply respects_find_judge_by_name; try exact I; auto.
      intros c j. reflexivity. }
  exact (proj1 (proj2 (H env w))).
Qed.

Lemma search_cases_by_type_cases_cache env w sn cn sv st fd td pg sz jid :
  cases_cache (cache (snd (CaseService._search_cases_by_type
                             sn cn sv st fd td pg sz jid env w)))
  = cases_cache (cache w).
Proof.
  destruct (respects_search_cases_by_type cases_cache sn cn sv st fd td pg sz jid
              ltac:(intros c s t cm; reflexivity) env w) as [_ [Hframe _]].
  exact Hframe.
Qed.

Lemma search_by_industry_type_cases_cache request env w :
  cases_cache (cache (snd (CaseService.search_by_industry_type request env w)))
  = cases_cache (cache w).
Proof.
  unfold CaseService.search_by_industry_type. rewrite bind_run.
  pose proof (resolve_search_value_cases_cache request env w) as H.
  destruct (CaseService.resolve_search_value request env w) as [[v|e] w0];
    cbn [fst snd] in *; [|exact H].
  now rewrite search_cases_by_type_cases_cache.
Qed.

Lemma search_by_judge_cases_cache request env w :
  cases_cache (cache (snd (CaseService.search_by_judge request env w)))
  = cases_cache (cache w).
Proof.
  unfold CaseService.search_by_judge. rewrite bind_run.
  pose proof (resolve_judge_id_cases_cache request env w) as H.
  destruct (CaseService.resolve_judge_id request env w) as [[v|e] w0];
    cbn [fst snd] in *; [|exact H].
  now rewrite search_cases_by_type_cases_cache.
Qed.

(** C1, on the code: a search run twice within the TTL of the cache of
    search results sends the search call twice, and nothing is ever stored
    in that cache. *)
Lemma repeated_search_is_sent_again :
  let run := CaseService.search_by_case_number Sample.request Sample.env in
  let w1 := snd (run Sample.world) in
  let w2 := snd (run w1) in
  monotonic w2 - monotonic Sample.world < seconds Settings.CACHE_TTL_CASES
  /\ fst (run w1) = fst (run Sample.world)
  /\ List.length (search_calls (sent w1)) = 1%nat
  /\ List.length (search_calls (sent w2)) = 2%nat
  /\ TTLCache.items (cases_cache (cache w2)) = [].
Proof. vm_compute. repeat split; reflexivity. Qed.

(** C1 (amended): the key of a cached search result is computed from a
    canonical serialisation of the parameters, whatever order they come in,
    so what [set_cases] stores [get_cases] returns within the TTL for the
    same parameters in any order; no search operation uses this cache: the
    shared operation, the five searches by text, the search by category
    and the search by judge all leave it as it was, and every run whose
    names resolve sends its own search call. *)
Theorem search_result_cache_key :
  (forall (md5 : string -> string) k1 k2,
      Permutation k1 k2 -> NoDup (map fst k1) ->
      CacheService._generate_cache_key md5 k1 = CacheService._generate_cache_key md5 k2)
  /\ (forall (md5 : string -> string) data k1 k2 env w w',
         Permutation k1 k2 -> NoDup (map fst k1) ->
         cache w' = cache (snd (CacheService.set_cases md5 data k1 env w)) ->
         monotonic w' < monotonic w + TTLCache.ttl (cases_cache (cache w)) ->
         fst (CacheService.get_cases md5 k2 env w') = Ok (Some data))
  /\ (forall env w sn cn sv st fd td pg sz jid,
         let run := CaseService._search_cases_by_type sn cn sv st fd td pg sz jid env w in
         cases_cache (cache (snd run)) = cases_cache (cache w)
         /\ forall cid w1,
             MapperService.find_commission_by_name sn cn env w = (Ok cid, w1) ->
             search_calls (sent (snd run))
             = (search_calls (sent w)
                ++ [Payload.mk cid pg sz (fst (date_range fd td (now w1)))
                               (snd (date_range fd td (now w1)))
                               (if (st =? 6) || (st =? 7) then 2 else 1) st sv jid])%list)
  /\ (forall op k request env w,
         In (op, k) [(CaseService.search_by_case_number, 1);
                     (CaseService.search_by_complainant, 2);
                     (CaseService.search_by_respondent, 3);
                     (CaseService.search_by_complainant_advocate, 4);
                     (CaseService.search_by_respondent_advocate, 5)] ->
         let run := op request env w in
         cases_cache (cache (snd run)) = cases_cache (cache w)
         /\ forall cid w1,
             MapperService.find_commission_by_name
               (CaseSearchRequest.state request) (CaseSearchRequest.commission request)
               env w
             = (Ok cid, w1) ->
             search_calls (sent (snd run))
             = (search_calls (sent w)
                ++ [Payload.mk cid (CaseSearchRequest.page request)
                               (CaseSearchRequest.size request)
                               (fst (date_range (CaseSearchRequest.from_date request)
                                                (CaseSearchRequest.to_date request)
                                                (now w1)))
                               (snd (date_range (CaseSearchRequest.from_date request)
                                                (CaseSearchRequest.to_date request)
                                                (now w1)))
                               1 k (CaseSearchRequest.search_value request) ""])%list)
  /\ (forall request env w,
         let run := CaseService.search_by_industry_type request env w in
         cases_cache (cache (snd run)) = cases_cache (cache w)
         /\ forall search_value w0 cid w1,
             CaseService.resolve_search_value request env w = (Ok search_value, w0) ->
             MapperService.find_commission_by_name
               (IndustryTypeSearchRequest.state request)
               (IndustryTypeSearchRequest.commission request) env w0
             = (Ok cid, w1) ->
             search_calls (sent (snd run))
             = (search_calls (sent w)
                ++ [Payload.mk cid (IndustryTypeSearchRequest.page request)
                               (IndustryTypeSearchRequest.size request)
                               (fst (date_range
                                       (IndustryTypeSearchRequest.from_date request)
                                       (IndustryTypeSearchRequest.to_date request)
                                       (now w1)))
                               (snd (date_range
                                       (IndustryTypeSearchRequest.from_date request)
                                       (IndustryTypeSearchRequest.to_date request)
                                       (now w1)))
                               2 6 (str_of_pyval search_value) ""])%list)
  /\ (forall request env w,
         let run := CaseService.search_by_judge request env w in
         cases_cache (cache (snd run)) = cases_cache (cache w)
         /\ forall judge_id w0 cid w1,
             CaseService.resolve_judge_id request env w = (Ok judge_id, w0) ->
             MapperService.find_commission_by_name
               (JudgeSearchRequest.state request)
               (JudgeSearchRequest.commission request) env w0
             = (Ok cid, w1) ->
             search_calls (sent (snd run))
             = (search_calls (sent w)
                ++ [Payload.mk cid (JudgeSearchRequest.page request)
                               (JudgeSearchRequest.size request)
                               (fst (date_range (JudgeSearchRequest.from_date request)
                                                (JudgeSearchRequest.to_date request)
                                                (now w1)))
                               (snd (date_range (JudgeSearchRequest.from_date request)
                                                (JudgeSearchRequest.to_date request)
                                                (now w1)))
                               2 7 "" (str_of_pyval judge_id)])%list).
Proof.
  split; [exact generate_cache_key_order|].
  split; [exact set_cases_get_cases|].
  split; [|split; [|split]].
  - intros env w sn cn sv st fd td pg sz jid run. split.
    + apply search_cases_by_type_cases_cache.
    + intros cid w1 Hres. now apply search_cases_by_type_search_calls.
  - intros op k request env w Hop run.
    assert (Hk : op = CaseService.search_by k /\ ((k =? 6) || (k =? 7) = false)).
    { cbn in Hop.
      repeat (destruct Hop as [Hop|Hop]; [injection Hop as <- <-; now split|]).
      contradiction. }
    destruct Hk as [-> Hk]. subst run. unfold CaseService.search_by. split.
    + apply search_cases_by_type_cases_cache.
    + intros cid w1 Hres.
      rewrite (search_cases_by_type_search_calls _ _ _ _ _ _ _ _ _ _ _ _ _ Hres).
      now rewrite Hk.
  - intros request env w run. subst run. split.
    + apply search_by_industry_type_cases_cache.
    + intros search_value w0 cid w1 Hvalue Hres.
      unfold CaseService.search_by_industry_type. rewrite bind_run, Hvalue.
      rewrite (search_cases_by_type_search_calls _ _ _ _ _ _ _ _ _ _ _ _ _ Hres).
      cbn.
      pose proof (resolve_search_value_search_calls request env w) as H.
      rewrite Hvalue in H. cbn in H. now rewrite H.
  - intros request env w run. subst run. split.
    + apply search_by_judge_cases_cache.
    + intros judge_id w0 cid w1 Hjudge Hres.
      unfold CaseService.search_by_judge. rewrite bind_run, Hjudge.
      rewrite (search_cases_by_type_search_calls _ _ _ _ _ _ _ _ _ _ _ _ _ Hres).
      cbn.
      pose proof (resolve_judge_id_search_calls request env w) as H.
      rewrite Hjudge in H. cbn in H. now rewrite H.
Qed.

Lemma search_result_cache_key_witness :
  let params := [("state", PStr "GUJARAT"); ("page", PInt 0); ("to_date", PNone)] in
  let shuffled := [("to_date", PNone); ("state", PStr "GUJARAT"); ("page", PInt 0)] in
  let w1 := snd (CacheService.set_cases (fun s => s) [] params Sample.env Sample.world) in
  fst (CacheService.get_cases (fun s => s) shuffled Sample.env (elapse (seconds 299) w1))
  = Ok (Some []).
Proof.
  cbv zeta.
  apply (proj1 (proj2 search_result_cache_key) (fun s => s) []
               [("state", PStr "GUJARAT"); ("page", PInt 0); ("to_date", PNone)]
               _ Sample.env Sample.world).
  - eapply Permutation_trans; [apply Permutation_cons_append|]. cbn.
    eapply Permutation_trans; [apply Permutation_cons_append|]. cbn.
    apply Permutation_refl.
  - cbn. repeat constructor; cbn; intuition discriminate.
  - reflexivity.
  - vm_compute. reflexivity.
Defined.

(* ================================================================== *)
(** * Further properties of the client *)
(* ================================================================== *)


(* ================================================================== *)
(** * Errors of a search *)
(* ================================================================== *)









(* ================================================================== *)
(** * The routes *)
(* ================================================================== *)




(* ================================================================== *)
(** * Date ranges and missing values *)
(* ================================================================== *)





(* ================================================================== *)
(** * Formatting one record, and a batch *)
(* ================================================================== *)





(* ================================================================== *)
(** * Freshness of the caches *)
(* ================================================================== *)









(* ================================================================== *)
(** * Cache keys *)
(* ================================================================== *)





(* ================================================================== *)
(** * Clearing the caches *)
(* ================================================================== *)


(* ================================================================== *)
(** * More on name matching *)
(* ================================================================== *)











(* ================================================================== *)
(** * A commission that is not listed *)
(* ================================================================== *)




(* ================================================================== *)
(** * What the search routes reply *)
(* ================================================================== *)







